(** * The package bundling script (tsup orchestration): model and properties

    The script reads the [bundler] section of a package manifest, runs an
    optional pre-hook, dispatches one [tsup] build per requested format plus
    the development-mode declaration mapper files, waits for all of them,
    runs an optional post-hook and reports completion.

    Strings are [string]; JavaScript arrays are [list]; a field that may be
    absent from the manifest is an [option]; asynchronous code is a trace
    writer with rejection (the monad [M] below). *)

From Stdlib Require Import String Ascii List Bool.
Import ListNotations.
Local Open Scope list_scope.
Local Open Scope string_scope.

(** ** JavaScript string primitives *)

Module JsString.

Definition LF : string := String (ascii_of_nat 10) "".

(** [s.startsWith(p)] *)
Definition startsWith (s p : string) : bool := String.prefix p s.

(** [s.includes(p)] *)
Fixpoint includes (s p : string) : bool :=
  String.prefix p s ||
  match s with
  | "" => false
  | String _ r => includes r p
  end.

Fixpoint drop (n : nat) (s : string) : string :=
  match n, s with
  | 0, _ => s
  | S _, "" => ""
  | S k, String _ r => drop k r
  end.

(** [s.replace(pat, rep)] with a string pattern: only the first occurrence
    is replaced ([rep] has no dollar sign here). *)
Fixpoint replace (pat rep s : string) : string :=
  if String.prefix pat s then rep ++ drop (String.length pat) s
  else match s with
       | "" => ""
       | String c r => String c (replace pat rep r)
       end.

(** [s.replace(/c/g, d)] for single characters. *)
Fixpoint replaceAllChar (c d : ascii) (s : string) : string :=
  match s with
  | "" => ""
  | String x r => String (if Ascii.eqb x c then d else x) (replaceAllChar c d r)
  end.

(** [s.split(c)] for a one-character separator. *)
Fixpoint split (c : ascii) (s : string) : list string :=
  match s with
  | "" => [""]
  | String x r =>
      if Ascii.eqb x c then "" :: split c r
      else match split c r with
           | h :: t => String x h :: t
           | [] => [String x ""]
           end
  end.

(** [l.join(sep)] *)
Fixpoint joinBy (sep : string) (l : list string) : string :=
  match l with
  | [] => ""
  | [x] => x
  | x :: t => x ++ sep ++ joinBy sep t
  end.

(** Cut at the last occurrence of [c]: [rsplit c (a ++ c ++ b) = Some (a, b)]
    when [b] has no [c]. *)
Fixpoint rsplit (c : ascii) (s : string) : option (string * string) :=
  match s with
  | "" => None
  | String x r =>
      match rsplit c r with
      | Some (a, b) => Some (String x a, b)
      | None => if Ascii.eqb x c then Some ("", r) else None
      end
  end.

(** A non-empty string is truthy. *)
Definition truthy (s : string) : bool := negb (s =? "").

End JsString.

(** ** Node's [path] module, POSIX flavour

    The script uses [join], [dirname], [relative], [parse] and [resolve] of
    Node's standard library.  They are modelled here on strings, segment by
    segment, after the POSIX implementation. *)

Module Path.
Import JsString.

Definition sep : ascii := "/"%char.

Definition isAbsolute (p : string) : bool :=
  match p with
  | String c _ => Ascii.eqb c sep
  | "" => false
  end.

Fixpoint endsWithSep (p : string) : bool :=
  match p with
  | "" => false
  | String c "" => Ascii.eqb c sep
  | String _ r => endsWithSep r
  end.

(** One step of [normalizeString]: [acc] is the stack of kept segments,
    most recent first. *)
Definition normStep (allowAboveRoot : bool) (acc : list string) (s : string)
  : list string :=
  if (s =? "") || (s =? ".") then acc
  else if s =? ".." then
    match acc with
    | top :: acc' =>
        if top =? ".." then (if allowAboveRoot then ".." :: acc else acc)
        else acc'
    | [] => if allowAboveRoot then [".."] else []
    end
  else s :: acc.

Definition normSegs (allowAboveRoot : bool) (segs : list string) : list string :=
  rev (fold_left (normStep allowAboveRoot) segs []).

Definition normalizeString (p : string) (allowAboveRoot : bool) : string :=
  joinBy "/" (normSegs allowAboveRoot (split sep p)).

Definition normalize (p : string) : string :=
  if p =? "" then "."
  else
    let abs := isAbsolute p in
    let trailing := endsWithSep p in
    let q := normalizeString p (negb abs) in
    if q =? "" then (if abs then "/" else if trailing then "./" else ".")
    else
      let q' := if trailing then q ++ "/" else q in
      if abs then "/" ++ q' else q'.

(** [path.join(...args)] *)
Definition join (args : list string) : string :=
  match filter truthy args with
  | [] => "."
  | parts => normalize (joinBy "/" parts)
  end.

Fixpoint stripTrailingSep (s : string) : string :=
  match s with
  | "" => ""
  | String c r =>
      let r' := stripTrailingSep r in
      if Ascii.eqb c sep && (r' =? "") then "" else String c r'
  end.

(** [path.dirname(p)] *)
Definition dirname (p : string) : string :=
  match p with
  | "" => "."
  | String c0 t =>
      let hasRoot := Ascii.eqb c0 sep in
      match rsplit sep (stripTrailingSep t) with
      | Some (a, _) => if hasRoot && (a =? "") then "//" else String c0 a
      | None => if hasRoot then "/" else "."
      end
  end.

(** [path.resolve(p)] in a process whose working directory is [cwd]
    (an absolute path). *)
Definition resolveSegs (cwd p : string) : list string :=
  if isAbsolute p then normSegs false (split sep p)
  else normSegs false (split sep (cwd ++ "/" ++ p)).

Definition resolve (cwd p : string) : string :=
  "/" ++ joinBy "/" (resolveSegs cwd p).

Fixpoint dropCommon (a b : list string) : list string * list string :=
  match a, b with
  | x :: a', y :: b' => if x =? y then dropCommon a' b' else (a, b)
  | _, _ => (a, b)
  end.

(** [path.relative(from, to)] *)
Definition relative (cwd from to : string) : string :=
  if from =? to then ""
  else
    let (f, t) := dropCommon (resolveSegs cwd from) (resolveSegs cwd to) in
    joinBy "/" (map (fun _ => "..") f ++ t)%list.

Record ParsedPath := {
  root : string;
  dir : string;
  base : string;
  ext : string;
  name : string;
}.

(** Name and extension of a base name.  The extension starts at the last
    dot, unless that dot opens the base name or the base name is [..];
    [atRoot] is the case of an absolute path with a single component,
    where Node's index test for [..] never succeeds. *)
Definition splitExt (atRoot : bool) (b : string) : string * string :=
  match rsplit "."%char b with
  | None => (b, "")
  | Some (pre, post) =>
      if pre =? "" then (b, "")
      else if (pre =? ".") && (post =? "") && negb atRoot then (b, "")
      else (pre, String "."%char post)
  end.

(** [path.parse(p)] *)
Definition parse (p : string) : ParsedPath :=
  if p =? "" then {| root := ""; dir := ""; base := ""; ext := ""; name := "" |}
  else
    let abs := isAbsolute p in
    let body := stripTrailingSep (if abs then drop 1 p else p) in
    let rt := if abs then "/" else "" in
    match rsplit sep body with
    | Some (a, b) =>
        let (n, e) := splitExt false b in
        {| root := rt; dir := rt ++ a; base := b; ext := e; name := n |}
    | None =>
        let (n, e) := splitExt abs body in
        {| root := rt; dir := rt; base := body; ext := e; name := n |}
    end.

End Path.

(** ** The [slash] package

    The script is run through [require] (it uses [__dirname] and
    [require.resolve]), so it loads a CommonJS release of the package
    (3.x): backslashes become forward slashes, except in an
    extended-length path and in a path with a character above U+0080
    ([/[^\u0000-\u0080]+/]), which are returned as they are.

    A character outside ASCII is held in a [string] as its UTF-8 bytes:
    every byte from 128 on belongs to such a character, and the only one
    that is not above U+0080 is U+0080 itself, the bytes 194 and 128. *)
Fixpoint hasNonAscii (p : string) : bool :=
  match p with
  | "" => false
  | String c r =>
      if Nat.ltb (nat_of_ascii c) 128 then hasNonAscii r
      else match r with
           | String c' r' =>
               if Nat.eqb (nat_of_ascii c) 194 && Nat.eqb (nat_of_ascii c') 128
               then hasNonAscii r'
               else true
           | "" => true
           end
  end.

Definition slash (p : string) : string :=
  let isExtendedLengthPath := JsString.startsWith p "\\?\" in
  if isExtendedLengthPath || hasNonAscii p then p
  else JsString.replaceAllChar "\"%char "/"%char p.

(** ** Data model *)

Inductive Formats := esm | cjs.

Definition Formats_eqb (a b : Formats) : bool :=
  match a, b with
  | esm, esm | cjs, cjs => true
  | _, _ => false
  end.

(** [Options['platform']] of tsup. *)
Inductive Platform := node | browser | neutral.

(** The manifest, as [fs.readJson] returns it.  A field that the JSON may
    omit is an [option]; a dependency object is the list of its keys with
    their version ranges, in the order of [Object.keys]. *)
Module Manifest.

Record BundlerConfig := {
  entries : option (list string);
  externals : option (list string);
  noExternal : option (list string);
  platform : option Platform;
  pre : option string;
  post : option string;
  formats : option (list Formats);
}.

Record PackageJson := {
  name : string;
  dependencies : option (list (string * string));
  peerDependencies : option (list (string * string));
  bundler : option BundlerConfig;
}.

End Manifest.

(** The part of an esbuild configuration that the [esbuildOptions] callbacks
    write. *)
Module ESBuild.

Record BuildOptions := {
  conditions : list string;
  platform : Platform;
  logLevel : string;
  legalComments : string;
  minifyWhitespace : bool;
  minifyIdentifiers : bool;
  minifySyntax : bool;
}.

End ESBuild.

(** An element of tsup's [noExternal]: a regular expression (by its source)
    or a module name. *)
Inductive Pattern :=
| PRegExp (source : string)
| PString (s : string).

(** Where an alias of [esbuild-plugin-alias] points. *)
Inductive AliasTarget :=
| RequireResolve (request : string)
| PathResolve (p : string).

Definition AliasPlugin := list (string * AliasTarget).

(** The options object handed to tsup's [build]. *)
Module Tsup.

Record DtsConfigSection := {
  tsconfig : string;
  dts_entry : list string;
  dts_resolve : bool;
}.

Record Options := {
  noExternal : list Pattern;
  silent : bool;
  treeshake : option bool;
  entry : list string;
  shims : bool;
  watch : bool;
  outDir : string;
  sourcemap : bool;
  format : list Formats;
  target : list string;
  clean : bool;
  dts : option DtsConfigSection;
  platform : Platform;
  esbuildPlugins : list AliasPlugin;
  external : list string;
  banner_js : option string;
  esbuildOptions : ESBuild.BuildOptions -> ESBuild.BuildOptions;
}.

End Tsup.

(** ** Effects

    A value thrown, or a promise's rejection reason: an [Error] object (of
    which the handler prints the [stack]) or any other value. *)
Inductive Thrown :=
| ErrorObject (stack : string)
| OtherValue (shown : string).

(** An asynchronous operation that has been started and not yet awaited. *)
Inductive Task :=
| BuildTask (o : Tsup.Options)
| MapperTask (file : string).

Inductive Hook := PreHook | PostHook.

Inductive Event :=
| EvReadJson (p : string)
| EvExecStart (h : Hook) (command : string)
| EvExecDone (h : Hook) (command : string)
| EvEmptyDir (p : string)
| EvPathExists (p : string)
| EvDispatch (t : Task)
| EvEnsureFile (p : string)
| EvWriteFile (p content : string)
| EvFulfilled (t : Task)
| EvConsoleLog (msg : string)
| EvConsoleError (msg : string)
| EvExit (code : nat).

(** What the process and its collaborators answer: the file system, the
    hook runner [exec] of the repository's utilities, tsup's [build]. A
    [None] answer is a fulfilled promise, [Some e] a rejection with [e]. *)
Record World := {
  process_cwd : string;
  process_argv : list string;
  process_env_CI : option string;
  script_dirname : string;
  fs_readJson : string -> Thrown + Manifest.PackageJson;
  fs_pathExists : string -> bool;
  fs_emptyDir : string -> option Thrown;
  fs_ensureFile : string -> option Thrown;
  fs_writeFile : string -> string -> option Thrown;
  utils_exec : string -> string -> option Thrown;
  tsup_build : Tsup.Options -> option Thrown;
}.

(** Asynchronous code: the events so far, in order, and either the value
    or the rejection reason. *)
Definition M (A : Type) : Type := (list Event * (Thrown + A))%type.

Definition ret {A} (a : A) : M A := ([], inr a).

Definition bind {A B} (m : M A) (f : A -> M B) : M B :=
  match m with
  | (t, inl e) => (t, inl e)
  | (t, inr a) => let (t', r) := f a in ((t ++ t')%list, r)
  end.

Definition emit (e : Event) : M unit := ([e], inr tt).

Definition throw {A} (e : Thrown) : M A := ([], inl e).

Definition settle (r : option Thrown) : M unit :=
  match r with
  | None => ret tt
  | Some e => throw e
  end.

Definition when (b : bool) (m : M unit) : M unit :=
  if b then m else ret tt.

Definition trace {A} (m : M A) : list Event := fst m.
Definition outcome {A} (m : M A) : Thrown + A := snd m.

Declare Scope async_scope.
Delimit Scope async_scope with async.
Notation "x <- m ;; k" := (bind m (fun x => k))
  (at level 61, m at next level, right associativity) : async_scope.
Notation "m ;; k" := (bind m (fun _ => k))
  (at level 61, right associativity) : async_scope.
Local Open Scope async_scope.

(** ** Primitive operations of the environment *)

Section Primitives.
Variable w : World.

Definition readJson (p : string) : M Manifest.PackageJson :=
  emit (EvReadJson p) ;;
  match fs_readJson w p with
  | inl e => throw e
  | inr pkg => ret pkg
  end.

Definition pathExists (p : string) : M bool :=
  emit (EvPathExists p) ;; ret (fs_pathExists w p).

Definition emptyDir (p : string) : M unit :=
  settle (fs_emptyDir w p) ;; emit (EvEmptyDir p).

Definition ensureFile (p : string) : M unit :=
  settle (fs_ensureFile w p) ;; emit (EvEnsureFile p).

Definition writeFile (p content : string) : M unit :=
  settle (fs_writeFile w p content) ;; emit (EvWriteFile p content).

(** [await exec(command, { cwd })]: the child process is started, and the
    promise settles when it has ended.  ([exec] is a helper of the
    repository's scripts; its third argument only sets how it logs.) *)
Definition exec (h : Hook) (command cwd : string) : M unit :=
  emit (EvExecStart h command) ;;
  settle (utils_exec w command cwd) ;;
  emit (EvExecDone h command).

End Primitives.

(** Destructuring [undefined] throws a [TypeError]. *)
Definition destructure {A} (o : option A) : M A :=
  match o with
  | Some a => ret a
  | None => throw (ErrorObject "TypeError: Cannot read properties of undefined")
  end.

(** A destructuring default: it applies when the property is absent. *)
Definition default {A} (d : A) (o : option A) : A :=
  match o with
  | Some a => a
  | None => d
  end.

(** [Object.keys(o || {})] *)
Definition keys (o : option (list (string * string))) : list string :=
  map fst (default [] o).

(** ** The script *)

Definition nodeInternalNames : list string :=
  [ "assert"; "buffer"; "child_process"; "cluster"; "crypto"; "dgram"; "dns";
    "domain"; "events"; "fs"; "http"; "https"; "net"; "os"; "path";
    "punycode"; "querystring"; "readline"; "stream"; "string_decoder"; "tls";
    "tty"; "url"; "util"; "v8"; "vm"; "zlib" ].

(** The reducer calls [acc.concat([i, `node:${i}`])], which builds a new
    array and leaves [acc] untouched, drops that array, and returns [acc]. *)
Definition nodeInternals : list string :=
  fold_left
    (fun acc i => let _ := (acc ++ [i; ("node:" ++ i)%string])%list in acc)
    nodeInternalNames [].

Definition hasFlag (flags : list string) (name : string) : bool :=
  match find (fun s => JsString.startsWith s ("--" ++ name)) flags with
  | Some s => JsString.truthy s
  | None => false
  end.

Record MinifyOptions := {
  mo_logLevel : string;
  mo_legalComments : string;
  mo_minifyWhitespace : bool;
  mo_minifyIdentifiers : bool;
  mo_minifySyntax : bool;
}.

Definition getESBuildOptions (optimized : bool) : MinifyOptions :=
  {| mo_logLevel := "error";
     mo_legalComments := "none";
     mo_minifyWhitespace := optimized;
     mo_minifyIdentifiers := false;
     mo_minifySyntax := optimized |}.

(** [Object.assign(c, o)] for the object of [getESBuildOptions]. *)
Definition Object_assign (c : ESBuild.BuildOptions) (o : MinifyOptions)
  : ESBuild.BuildOptions :=
  {| ESBuild.conditions := ESBuild.conditions c;
     ESBuild.platform := ESBuild.platform c;
     ESBuild.logLevel := mo_logLevel o;
     ESBuild.legalComments := mo_legalComments o;
     ESBuild.minifyWhitespace := mo_minifyWhitespace o;
     ESBuild.minifyIdentifiers := mo_minifyIdentifiers o;
     ESBuild.minifySyntax := mo_minifySyntax o |}.

Definition setConditionsPlatform (cs : list string) (p : Platform)
  (c : ESBuild.BuildOptions) : ESBuild.BuildOptions :=
  {| ESBuild.conditions := cs;
     ESBuild.platform := p;
     ESBuild.logLevel := ESBuild.logLevel c;
     ESBuild.legalComments := ESBuild.legalComments c;
     ESBuild.minifyWhitespace := ESBuild.minifyWhitespace c;
     ESBuild.minifyIdentifiers := ESBuild.minifyIdentifiers c;
     ESBuild.minifySyntax := ESBuild.minifySyntax c |}.

Record DTSConfigs := {
  dtsBuild : option Formats;
  dtsConfig : Tsup.DtsConfigSection;
  tsConfigExists : bool;
}.

(** A format name is a non-empty string: it is truthy when defined. *)
Definition isDefined {A} (o : option A) : bool :=
  match o with
  | Some _ => true
  | None => false
  end.

(** [cwd] here is the module-level constant, [process.cwd()]; [formats[0]]
    is [hd_error formats]. *)
Definition getDTSConfigs (w : World) (formats : list Formats)
  (entries : list string) (optimized : bool) : M DTSConfigs :=
  let tsConfigPath := Path.join [process_cwd w; "tsconfig.json"] in
  tsConfigExists <- pathExists w tsConfigPath ;;
  let dtsBuild :=
    if optimized && isDefined (hd_error formats) && tsConfigExists
    then hd_error formats else None in
  let dtsConfig :=
    {| Tsup.tsconfig := tsConfigPath;
       Tsup.dts_entry := entries;
       Tsup.dts_resolve := true |} in
  ret {| dtsBuild := dtsBuild; dtsConfig := dtsConfig;
         tsConfigExists := tsConfigExists |}.

(** The values [generateDTSMapperFile] computes before it writes. The last
    step on [rel] splits at [path.sep] and joins with [path.posix.sep]. *)
Record MapperFile := {
  pathName : string;
  srcName : string;
  rel : string;
  reference : string;
  content : string;
}.

Definition mapperFile (processCwd file : string) : MapperFile :=
  let entryName := Path.name (Path.parse file) in
  let dir := Path.dir (Path.parse file) in
  let pathName :=
    Path.join [processCwd; JsString.replace "./src" "dist" dir;
                entryName ++ ".d.ts"] in
  let srcName := Path.join [processCwd; file] in
  let rel :=
    JsString.joinBy "/"
      (JsString.split Path.sep
         (Path.relative processCwd (Path.dirname pathName) (Path.dirname srcName))) in
  let reference := rel ++ "/" ++ entryName in
  {| pathName := pathName;
     srcName := srcName;
     rel := rel;
     reference := reference;
     content := "// dev-mode" ++ JsString.LF ++ "export * from '" ++ reference ++ "';" |}.

Definition generateDTSMapperFile (w : World) (file : string) : M unit :=
  let f := mapperFile (process_cwd w) file in
  ensureFile w (pathName f) ;;
  writeFile w (pathName f) (content f).

Definition hookCommand (w : World) (script : string) : string :=
  "node --loader " ++ script_dirname w
  ++ "/../node_modules/esbuild-register/loader.js -r " ++ script_dirname w
  ++ "/../node_modules/esbuild-register/register.js " ++ script.

Definition vitestPattern : Pattern := PRegExp "^@vitest\/.+$".

Definition requireBanner : string :=
  "import { createRequire as myCreateRequire } from 'node:module';          "
  ++ JsString.LF ++ "const require = myCreateRequire(import.meta.url);".

(** The object literal of the first [build] call. *)
Definition esmOptions (noExternal : list Pattern) (nonPresetEntries : list string)
  (watch : bool) (outDir : string) (d : DTSConfigs) (platform : option Platform)
  (externals : list string) (optimized : bool) : Tsup.Options :=
  let isNode := match platform with Some node => true | _ => false end in
  {| Tsup.noExternal := noExternal;
     Tsup.silent := true;
     Tsup.treeshake := Some true;
     Tsup.entry := nonPresetEntries;
     Tsup.shims := true;
     Tsup.watch := watch;
     Tsup.outDir := outDir;
     Tsup.sourcemap := false;
     Tsup.format := [esm];
     Tsup.target := ["chrome100"; "safari15"; "firefox91"];
     Tsup.clean := false;
     Tsup.dts := match dtsBuild d with
                 | Some esm => Some (dtsConfig d)
                 | _ => None
                 end;
     Tsup.platform := browser;
     Tsup.esbuildPlugins :=
       if isNode
       then [[("fs-extra/esm", RequireResolve "../node_modules/fs-extra");
              ("fs-extra/lib/esm.mjs", RequireResolve "../node_modules/fs-extra")]]
       else [[("process", PathResolve "../node_modules/process/browser.js");
              ("util", PathResolve "../node_modules/util/util.js")]];
     Tsup.external := if isNode then (externals ++ nodeInternals)%list else externals;
     Tsup.banner_js := if isNode then Some requireBanner else None;
     Tsup.esbuildOptions := fun c =>
       Object_assign
         (setConditionsPlatform ["module"] (default browser platform) c)
         (getESBuildOptions optimized) |}.

(** The object literal of the second [build] call. *)
Definition cjsOptions (noExternal : list Pattern) (allEntries : list string)
  (watch : bool) (outDir : string) (d : DTSConfigs)
  (externals : list string) (optimized : bool) : Tsup.Options :=
  {| Tsup.noExternal := noExternal;
     Tsup.silent := true;
     Tsup.treeshake := None;
     Tsup.entry := allEntries;
     Tsup.shims := true;
     Tsup.watch := watch;
     Tsup.outDir := outDir;
     Tsup.sourcemap := false;
     Tsup.format := [cjs];
     Tsup.target := ["node18"];
     Tsup.clean := false;
     Tsup.dts := match dtsBuild d with
                 | Some cjs => Some (dtsConfig d)
                 | _ => None
                 end;
     Tsup.platform := node;
     Tsup.esbuildPlugins := [];
     Tsup.external := externals;
     Tsup.banner_js := None;
     Tsup.esbuildOptions := fun c =>
       Object_assign
         (setConditionsPlatform ["node"; "default"; "module"] node c)
         (getESBuildOptions optimized) |}.

(** [tasks.push(...)]: every call in the argument list starts its operation
    and yields the pending promise. *)
Definition push (ts : list Task) : M (list Task) :=
  (map EvDispatch ts, inr ts).

(** One task running to its end. *)
Definition runTask (w : World) (t : Task) : M unit :=
  match t with
  | BuildTask o => settle (tsup_build w o)
  | MapperTask file => generateDTSMapperFile w file
  end ;;
  emit (EvFulfilled t).

(** [await Promise.all(tasks)]: fulfilled once every task is, rejected as
    soon as a task rejects.  The tasks have all been started when they were
    pushed and settle in an order that the runtime decides.  The trace
    records one of these orders, that of the dispatch, and it is cut at the
    first task that rejects: what the tasks behind it still do before the
    process exits is not recorded.  So of a fulfilled run the trace holds
    every step of every task, with the lists [fulfilled] and [written] in
    dispatch order; of a rejected run the properties below state only what
    holds whatever the other tasks have still done. *)
Fixpoint Promise_all (w : World) (ts : list Task) : M unit :=
  match ts with
  | [] => ret tt
  | t :: rest => runTask w t ;; Promise_all w rest
  end.

Definition optTruthy (o : option string) : bool :=
  match o with
  | Some s => JsString.truthy s
  | None => false
  end.

Definition isPreset (f : string) : bool :=
  JsString.includes (Path.name (Path.parse f)) "preset".

Definition run (w : World) (cwd : string) (flags : list string) : M unit :=
  pkg <- readJson w (Path.join [cwd; "package.json"]) ;;
  b <- destructure (Manifest.bundler pkg) ;;
  let name := Manifest.name pkg in
  let dependencies := Manifest.dependencies pkg in
  let peerDependencies := Manifest.peerDependencies pkg in
  let entries := default [] (Manifest.entries b) in
  let extraExternals := default [] (Manifest.externals b) in
  let extraNoExternal := default [] (Manifest.noExternal b) in
  let platform := Manifest.platform b in
  let pre := Manifest.pre b in
  let post := Manifest.post b in
  let formats := default [esm; cjs] (Manifest.formats b) in
  when (optTruthy pre) (exec w PreHook (hookCommand w (default "" pre)) cwd) ;;
  let reset := hasFlag flags "reset" in
  let watch := hasFlag flags "watch" in
  let optimized := hasFlag flags "optimized" in
  when reset (emptyDir w (Path.join [process_cwd w; "dist"])) ;;
  let outDir := Path.join [process_cwd w; "dist"] in
  let externals :=
    (name :: extraExternals ++ keys dependencies ++ keys peerDependencies)%list in
  let allEntries := map (fun e => slash (Path.join [cwd; e])) entries in
  d <- getDTSConfigs w formats entries optimized ;;
  let nonPresetEntries := filter (fun f => negb (isPreset f)) allEntries in
  let noExternal := vitestPattern :: map PString extraNoExternal in
  t1 <- (if existsb (Formats_eqb esm) formats
         then push [BuildTask (esmOptions noExternal nonPresetEntries watch outDir
                                 d platform externals optimized)]
         else ret []) ;;
  t2 <- (if existsb (Formats_eqb cjs) formats
         then push [BuildTask (cjsOptions noExternal allEntries watch outDir
                                 d externals optimized)]
         else ret []) ;;
  t3 <- (if tsConfigExists d && negb optimized
         then push (map MapperTask entries)
         else ret []) ;;
  let tasks := (t1 ++ t2 ++ t3)%list in
  Promise_all w tasks ;;
  when (optTruthy post) (exec w PostHook (hookCommand w (default "" post)) cwd) ;;
  when (negb (match process_env_CI w with
              | Some v => v =? "true"
              | None => false
              end))
       (emit (EvConsoleLog "done")).

(** Self execution: [run({ cwd, flags }).catch(...)]. *)
Definition main (w : World) : list Event :=
  let flags := skipn 2 (process_argv w) in
  let cwd := process_cwd w in
  match run w cwd flags with
  | (t, inr _) => t
  | (t, inl err) =>
      (t ++ match err with
            | ErrorObject stack => [EvConsoleError stack]
            | OtherValue _ => []
            end ++ [EvExit 1])%list
  end.

(** ** Observations on a trace *)

Fixpoint select {A} (f : Event -> option A) (t : list Event) : list A :=
  match t with
  | [] => []
  | e :: r => match f e with
              | Some a => a :: select f r
              | None => select f r
              end
  end.

Definition dispatched : list Event -> list Task :=
  select (fun e => match e with EvDispatch t => Some t | _ => None end).

Definition fulfilled : list Event -> list Task :=
  select (fun e => match e with EvFulfilled t => Some t | _ => None end).

Definition written : list Event -> list (string * string) :=
  select (fun e => match e with EvWriteFile p c => Some (p, c) | _ => None end).

Definition stdout : list Event -> list string :=
  select (fun e => match e with EvConsoleLog m => Some m | _ => None end).

Definition stderr : list Event -> list string :=
  select (fun e => match e with EvConsoleError m => Some m | _ => None end).

(** The exit status: the code of the first [process.exit], and 0 when the
    process ends without one. *)
Definition exitCode (t : list Event) : nat :=
  hd 0 (select (fun e => match e with EvExit c => Some c | _ => None end) t).

Definition builds (ts : list Task) : list Tsup.Options :=
  flat_map (fun t => match t with BuildTask o => [o] | MapperTask _ => [] end) ts.

Definition mappers (ts : list Task) : list string :=
  flat_map (fun t => match t with MapperTask f => [f] | BuildTask _ => [] end) ts.

Definition hasDts (o : Tsup.Options) : bool :=
  match Tsup.dts o with
  | Some _ => true
  | None => false
  end.

(** ** The build plan, as a function of the manifest

    The locals of [run] between the pre-hook and [Promise.all], collected:
    [run_dispatched] below shows that these are the tasks [run] starts. *)

Section Plan.
Variables (w : World) (cwd : string) (flags : list string).
Variables (pkg : Manifest.PackageJson) (b : Manifest.BundlerConfig).

Definition planEntries : list string := default [] (Manifest.entries b).
Definition planFormats : list Formats := default [esm; cjs] (Manifest.formats b).
Definition planOptimized : bool := hasFlag flags "optimized".
Definition planOutDir : string := Path.join [process_cwd w; "dist"].

Definition planExternals : list string :=
  (Manifest.name pkg :: default [] (Manifest.externals b)
     ++ keys (Manifest.dependencies pkg)
     ++ keys (Manifest.peerDependencies pkg))%list.

Definition planAllEntries : list string :=
  map (fun e => slash (Path.join [cwd; e])) planEntries.

Definition planNoExternal : list Pattern :=
  vitestPattern :: map PString (default [] (Manifest.noExternal b)).

Definition planTsConfigPath : string := Path.join [process_cwd w; "tsconfig.json"].

Definition planDts : DTSConfigs :=
  {| dtsBuild :=
       if planOptimized && isDefined (hd_error planFormats)
          && fs_pathExists w planTsConfigPath
       then hd_error planFormats else None;
     dtsConfig := {| Tsup.tsconfig := planTsConfigPath;
                     Tsup.dts_entry := planEntries;
                     Tsup.dts_resolve := true |};
     tsConfigExists := fs_pathExists w planTsConfigPath |}.

Definition planEsm : Tsup.Options :=
  esmOptions planNoExternal (filter (fun f => negb (isPreset f)) planAllEntries)
    (hasFlag flags "watch") planOutDir planDts (Manifest.platform b)
    planExternals planOptimized.

Definition planCjs : Tsup.Options :=
  cjsOptions planNoExternal planAllEntries (hasFlag flags "watch") planOutDir
    planDts planExternals planOptimized.

Definition planTasks : list Task :=
  ((if existsb (Formats_eqb esm) planFormats then [BuildTask planEsm] else [])
   ++ (if existsb (Formats_eqb cjs) planFormats then [BuildTask planCjs] else [])
   ++ (if fs_pathExists w planTsConfigPath && negb planOptimized
       then map MapperTask planEntries else []))%list.

Definition preCommand : string := hookCommand w (default "" (Manifest.pre b)).
Definition postCommand : string := hookCommand w (default "" (Manifest.post b)).

(** The manifest is read, has a [bundler] section, and the pre-hook and
    the reset of the output directory, where requested, succeed. *)
Definition setupSucceeds : Prop :=
  fs_readJson w (Path.join [cwd; "package.json"]) = inr pkg
  /\ Manifest.bundler pkg = Some b
  /\ (optTruthy (Manifest.pre b) = true -> utils_exec w preCommand cwd = None)
  /\ (hasFlag flags "reset" = true -> fs_emptyDir w planOutDir = None).

End Plan.

(** ** Phases of [run]

    [run_unfold] below shows that, once the manifest is known, [run] is the
    setup phase, the dispatch of [planTasks], and [afterDispatch]. *)

Definition setupPhase (w : World) (cwd : string) (flags : list string)
  (b : Manifest.BundlerConfig) : M unit :=
  emit (EvReadJson (Path.join [cwd; "package.json"])) ;;
  when (optTruthy (Manifest.pre b)) (exec w PreHook (preCommand w b) cwd) ;;
  when (hasFlag flags "reset") (emptyDir w (planOutDir w)) ;;
  emit (EvPathExists (planTsConfigPath w)).

Definition finishPhase (w : World) (cwd : string) (b : Manifest.BundlerConfig)
  : M unit :=
  when (optTruthy (Manifest.post b)) (exec w PostHook (postCommand w b) cwd) ;;
  when (negb (match process_env_CI w with
              | Some v => v =? "true"
              | None => false
              end))
       (emit (EvConsoleLog "done")).

Definition afterDispatch (w : World) (cwd : string) (b : Manifest.BundlerConfig)
  (ts : list Task) : M unit :=
  Promise_all w ts ;; finishPhase w cwd b.

(** What a mapper task writes: the path and the content. *)
Definition mapperWrite (w : World) (file : string) : string * string :=
  (pathName (mapperFile (process_cwd w) file),
   content (mapperFile (process_cwd w) file)).

Definition ciIsTrue (w : World) : bool :=
  match process_env_CI w with
  | Some v => v =? "true"
  | None => false
  end.

(** *** Classes of events, by the phase that emits them *)

Definition setupEvent (e : Event) : bool :=
  match e with
  | EvReadJson _ | EvExecStart PreHook _ | EvExecDone PreHook _
  | EvEmptyDir _ | EvPathExists _ => true
  | _ => false
  end.

Definition taskEvent (e : Event) : bool :=
  match e with
  | EvEnsureFile _ | EvWriteFile _ _ | EvFulfilled _ => true
  | _ => false
  end.

Definition finishEvent (e : Event) : bool :=
  match e with
  | EvExecStart PostHook _ | EvExecDone PostHook _ | EvConsoleLog _ => true
  | _ => false
  end.

Definition runEvent (e : Event) : bool :=
  setupEvent e || taskEvent e || finishEvent e
  || match e with EvDispatch _ => true | _ => false end.

(** ** Shapes of paths and entries *)

Fixpoint hasChar (c : ascii) (s : string) : bool :=
  match s with
  | "" => false
  | String x r => Ascii.eqb x c || hasChar c r
  end.

Definition noSep (s : string) : bool := negb (hasChar Path.sep s).

(** A path segment that [normalize] keeps as it is. *)
Definition plainSegment (s : string) : bool :=
  negb (s =? "") && negb (s =? ".") && negb (s =? "..") && negb (hasChar Path.sep s).

(** An extension without its dot: it has neither a dot nor a separator. *)
Definition plainExt (e : string) : bool :=
  negb (hasChar "."%char e) && negb (hasChar Path.sep e).

(** An absolute path, by its segments; an entry under [./src], by its
    directories below [src], its name and its extension. *)
Definition absPath (segs : list string) : string := "/" ++ JsString.joinBy "/" segs.

Definition entryBase (n e : string) : string := n ++ "." ++ e.

Definition srcEntry (ds : list string) (n e : string) : string :=
  JsString.joinBy "/" ("." :: "src" :: ds ++ [entryBase n e]).

(** ** Example packages *)

Definition exampleBundler (fmts : option (list Formats)) : Manifest.BundlerConfig :=
  {| Manifest.entries := Some ["./src/index.ts"; "./src/presets/foo-preset.ts"];
     Manifest.externals := None;
     Manifest.noExternal := None;
     Manifest.platform := Some node;
     Manifest.pre := Some "./scripts/pre.ts";
     Manifest.post := Some "./scripts/post.ts";
     Manifest.formats := fmts |}.

Definition examplePackage (fmts : option (list Formats)) : Manifest.PackageJson :=
  {| Manifest.name := "@storybook/example";
     Manifest.dependencies := Some [("lodash", "^4.17.21")];
     Manifest.peerDependencies := Some [("react", "^18.0.0")];
     Manifest.bundler := Some (exampleBundler fmts) |}.

(** A package at [/repo/pkg] whose hooks answer [hookAnswer]; everything
    else succeeds and a [tsconfig.json] is present. *)
Definition exampleWorld (fmts : option (list Formats)) (args : list string)
  (hookAnswer : option Thrown) : World :=
  {| process_cwd := "/repo/pkg";
     process_argv := ("node" :: "bundle.ts" :: args)%list;
     process_env_CI := None;
     script_dirname := "/repo/scripts/prepare";
     fs_readJson := fun _ => inr (examplePackage fmts);
     fs_pathExists := fun _ => true;
     fs_emptyDir := fun _ => None;
     fs_ensureFile := fun _ => None;
     fs_writeFile := fun _ _ => None;
     utils_exec := fun _ _ => hookAnswer;
     tsup_build := fun _ => None |}.

Definition specWorld : World := exampleWorld (Some [esm; cjs]) [] None.

(** The same package built with the environment variable [CI] set. *)
Definition ciWorld (value : string) : World :=
  {| process_cwd := process_cwd specWorld;
     process_argv := process_argv specWorld;
     process_env_CI := Some value;
     script_dirname := script_dirname specWorld;
     fs_readJson := fs_readJson specWorld;
     fs_pathExists := fs_pathExists specWorld;
     fs_emptyDir := fs_emptyDir specWorld;
     fs_ensureFile := fs_ensureFile specWorld;
     fs_writeFile := fs_writeFile specWorld;
     utils_exec := utils_exec specWorld;
     tsup_build := tsup_build specWorld |}.
Definition optimizedWorld : World := exampleWorld (Some [esm; cjs]) ["--optimized"] None.

Definition anESBuildConfig : ESBuild.BuildOptions :=
  {| ESBuild.conditions := [];
     ESBuild.platform := browser;
     ESBuild.logLevel := "info";
     ESBuild.legalComments := "eof";
     ESBuild.minifyWhitespace := false;
     ESBuild.minifyIdentifiers := false;
     ESBuild.minifySyntax := false |}.

(** A package whose only entry is written without the leading [./]. *)
Definition bareEntryWorld : World :=
  {| process_cwd := "/repo/pkg";
     process_argv := ["node"; "bundle.ts"];
     process_env_CI := None;
     script_dirname := "/repo/scripts/prepare";
     fs_readJson := fun _ =>
       inr {| Manifest.name := "@storybook/example";
              Manifest.dependencies := None;
              Manifest.peerDependencies := None;
              Manifest.bundler :=
                Some {| Manifest.entries := Some ["src/index.ts"];
                        Manifest.externals := None;
                        Manifest.noExternal := None;
                        Manifest.platform := None;
                        Manifest.pre := None;
                        Manifest.post := None;
                        Manifest.formats := None |} |};
     fs_pathExists := fun _ => true;
     fs_emptyDir := fun _ => None;
     fs_ensureFile := fun _ => None;
     fs_writeFile := fun _ _ => None;
     utils_exec := fun _ _ => None;
     tsup_build := fun _ => None |}.

(** A package whose pre-hook is the empty string, without post-hook and
    without [tsconfig.json]; the hook runner would fail if it were asked. *)
Definition emptyHooksWorld : World :=
  {| process_cwd := "/repo/pkg";
     process_argv := ["node"; "bundle.ts"];
     process_env_CI := None;
     script_dirname := "/repo/scripts/prepare";
     fs_readJson := fun _ =>
       inr {| Manifest.name := "@storybook/example";
              Manifest.dependencies := None;
              Manifest.peerDependencies := None;
              Manifest.bundler :=
                Some {| Manifest.entries := Some ["./src/index.ts"];
                        Manifest.externals := None;
                        Manifest.noExternal := None;
                        Manifest.platform := None;
                        Manifest.pre := Some "";
                        Manifest.post := None;
                        Manifest.formats := None |} |};
     fs_pathExists := fun _ => false;
     fs_emptyDir := fun _ => None;
     fs_ensureFile := fun _ => None;
     fs_writeFile := fun _ _ => None;
     utils_exec := fun _ _ => Some (OtherValue "never asked");
     tsup_build := fun _ => None |}.

(** A package whose manifest has no bundler section. *)
Definition plainPackage : Manifest.PackageJson :=
  {| Manifest.name := "@storybook/example";
     Manifest.dependencies := None;
     Manifest.peerDependencies := None;
     Manifest.bundler := None |}.

Definition plainWorld : World :=
  {| process_cwd := "/repo/pkg";
     process_argv := ["node"; "bundle.ts"; "--reset"];
     process_env_CI := None;
     script_dirname := "/repo/scripts/prepare";
     fs_readJson := fun _ => inr plainPackage;
     fs_pathExists := fun _ => true;
     fs_emptyDir := fun _ => None;
     fs_ensureFile := fun _ => None;
     fs_writeFile := fun _ _ => None;
     utils_exec := fun _ _ => None;
     tsup_build := fun _ => None |}.

(** A package whose bundler section names no entries. *)
Definition noEntriesBundler : Manifest.BundlerConfig :=
  {| Manifest.entries := None;
     Manifest.externals := None;
     Manifest.noExternal := None;
     Manifest.platform := None;
     Manifest.pre := None;
     Manifest.post := None;
     Manifest.formats := None |}.

Definition noEntriesPackage : Manifest.PackageJson :=
  {| Manifest.name := "@storybook/example";
     Manifest.dependencies := None;
     Manifest.peerDependencies := None;
     Manifest.bundler := Some noEntriesBundler |}.

Definition noEntriesWorld : World :=
  {| process_cwd := "/repo/pkg";
     process_argv := ["node"; "bundle.ts"];
     process_env_CI := None;
     script_dirname := "/repo/scripts/prepare";
     fs_readJson := fun _ => inr noEntriesPackage;
     fs_pathExists := fun _ => true;
     fs_emptyDir := fun _ => None;
     fs_ensureFile := fun _ => None;
     fs_writeFile := fun _ _ => None;
     utils_exec := fun _ _ => None;
     tsup_build := fun _ => None |}.

(** A package whose CommonJS build fails. *)
Definition failingBuildWorld : World :=
  {| process_cwd := "/repo/pkg";
     process_argv := ["node"; "bundle.ts"];
     process_env_CI := None;
     script_dirname := "/repo/scripts/prepare";
     fs_readJson := fun _ => inr (examplePackage None);
     fs_pathExists := fun _ => true;
     fs_emptyDir := fun _ => None;
     fs_ensureFile := fun _ => None;
     fs_writeFile := fun _ _ => None;
     utils_exec := fun _ _ => None;
     tsup_build := fun o =>
       match Tsup.format o with
       | [cjs] => Some (ErrorObject "Error: Build failed")
       | _ => None
       end |}.

(** ** What makes a task succeed

    A build is fulfilled when tsup's [build] is; a mapper task when both
    [ensureFile] and [writeFile] are, on the path and content it computes. *)

Definition taskOk (w : World) (t : Task) : bool :=
  match t with
  | BuildTask o => negb (isDefined (tsup_build w o))
  | MapperTask file =>
      negb (isDefined (fs_ensureFile w (fst (mapperWrite w file))))
      && negb (isDefined (fs_writeFile w (fst (mapperWrite w file))
                            (snd (mapperWrite w file))))
  end.

(** The script of a hook in the manifest. *)
Definition hookScript (h : Hook) (b : Manifest.BundlerConfig) : option string :=
  match h with
  | PreHook => Manifest.pre b
  | PostHook => Manifest.post b
  end.

(** ** Proof automation *)

Ltac run_prim :=
  unfold when, exec, emptyDir, ensureFile, writeFile, settle, emit, throw, ret,
    bind, trace, outcome; simpl.

Ltac find_in_list :=
  repeat (first [left; reflexivity | right]).

(** [L] is [select_none] at the class of events of a phase, [H] the lemma
    that the phase emits only events of that class. *)
Tactic Notation "no_events" open_constr(L) constr(H) :=
  apply L;
  [ let e := fresh "e" in
    intros e; destruct e as [?|[] ?|[] ?|?|?|?|?|? ?|?|?|?|?]; cbv;
    congruence
  | apply H ].

(** * Properties *)

Example srcEntry_example :
  srcEntry ["presets"] "foo-preset" "ts" = "./src/presets/foo-preset.ts".
Proof. reflexivity. Qed.

Example absPath_example : absPath ["repo"; "pkg"] = "/repo/pkg".
Proof. reflexivity. Qed.

(** ** Reasoning on traces *)

Lemma select_app {A} (f : Event -> option A) (s t : list Event) :
  select f (s ++ t) = (select f s ++ select f t)%list.
Proof.
  induction s as [|e s IH]; simpl; [reflexivity|].
  destruct (f e); simpl; now rewrite IH.
Qed.

Lemma select_In {A} (f : Event -> option A) (t : list Event) (a : A) :
  In a (select f t) <-> exists e, In e t /\ f e = Some a.
Proof.
  induction t as [|e t IH]; simpl.
  - split; [tauto | intros (e & [] & _)].
  - destruct (f e) as [a'|] eqn:E; simpl; rewrite ?IH; split.
    + intros [->|(e' & H1 & H2)]; eauto.
    + intros (e' & [->|H1] & H2); [left; congruence | right; eauto].
    + intros (e' & H1 & H2); eauto.
    + intros (e' & [->|H1] & H2); [congruence | eauto].
Qed.

Lemma trace_bind {A B} (m : M A) (f : A -> M B) :
  trace (bind m f) =
  (trace m ++ match outcome m with
              | inr a => trace (f a)
              | inl _ => []
              end)%list.
Proof.
  destruct m as [t [e|a]]; simpl.
  - now rewrite app_nil_r.
  - now destruct (f a).
Qed.

Lemma outcome_bind {A B} (m : M A) (f : A -> M B) :
  outcome (bind m f) =
  match outcome m with
  | inr a => outcome (f a)
  | inl e => inl e
  end.
Proof.
  destruct m as [t [e|a]]; simpl; [reflexivity|].
  now destruct (f a).
Qed.

Lemma bind_ret_l {A B} (a : A) (f : A -> M B) : bind (ret a) f = f a.
Proof. unfold bind, ret. now destruct (f a). Qed.

Lemma bind_assoc {A B C} (m : M A) (f : A -> M B) (g : B -> M C) :
  bind (bind m f) g = bind m (fun a => bind (f a) g).
Proof.
  destruct m as [t [e|a]]; simpl; [reflexivity|].
  destruct (f a) as [t1 [e1|b1]]; simpl; [reflexivity|].
  destruct (g b1) as [t2 r2]. now rewrite app_assoc.
Qed.

Lemma bind_push3 {B} (xs ys zs : list Task) (k : list Task -> M B) :
  bind (push xs) (fun t1 =>
    bind (push ys) (fun t2 =>
      bind (push zs) (fun t3 => k (t1 ++ t2 ++ t3)%list)))
  = bind (push (xs ++ ys ++ zs)) k.
Proof.
  unfold bind, push.
  destruct (k (xs ++ ys ++ zs)%list) as [t r].
  now rewrite !map_app, <- !app_assoc.
Qed.

Lemma push_if (c : bool) (xs : list Task) :
  (if c then push xs else ret []) = push (if c then xs else []).
Proof. now destruct c. Qed.

Lemma bind_ext {A B} (m : M A) (f g : A -> M B) :
  (forall a, f a = g a) -> bind m f = bind m g.
Proof.
  intros H. destruct m as [t [e|a]]; simpl; [reflexivity|]. now rewrite H.
Qed.

Lemma getDTSConfigs_eq {B} w flags b (k : DTSConfigs -> M B) :
  bind (getDTSConfigs w (planFormats b) (planEntries b) (planOptimized flags)) k
  = (emit (EvPathExists (planTsConfigPath w)) ;; k (planDts w flags b)).
Proof.
  unfold getDTSConfigs, pathExists.
  rewrite !bind_assoc. apply bind_ext; intros _.
  now rewrite !bind_ret_l.
Qed.

Lemma run_unfold w cwd flags pkg b :
  fs_readJson w (Path.join [cwd; "package.json"]) = inr pkg ->
  Manifest.bundler pkg = Some b ->
  run w cwd flags =
  (setupPhase w cwd flags b ;;
   ts <- push (planTasks w cwd flags pkg b) ;;
   afterDispatch w cwd b ts).
Proof.
  intros Hread Hb.
  unfold run, setupPhase, readJson.
  rewrite Hread, !bind_assoc.
  apply bind_ext; intros _.
  rewrite bind_ret_l, Hb. unfold destructure. rewrite bind_ret_l.
  apply bind_ext; intros _.
  apply bind_ext; intros _.
  rewrite (getDTSConfigs_eq w flags b).
  apply bind_ext; intros _.
  rewrite !push_if.
  exact (bind_push3 _ _ _ (afterDispatch w cwd b)).
Qed.

Lemma run_read_fails w cwd flags e :
  fs_readJson w (Path.join [cwd; "package.json"]) = inl e ->
  run w cwd flags = ([EvReadJson (Path.join [cwd; "package.json"])], inl e).
Proof.
  intros H. unfold run, readJson. now rewrite H.
Qed.

Lemma run_no_bundler w cwd flags pkg :
  fs_readJson w (Path.join [cwd; "package.json"]) = inr pkg ->
  Manifest.bundler pkg = None ->
  run w cwd flags =
  ([EvReadJson (Path.join [cwd; "package.json"])],
   inl (ErrorObject "TypeError: Cannot read properties of undefined")).
Proof.
  intros H Hb. unfold run, readJson.
  rewrite H, bind_assoc.
  rewrite (bind_ext _ _ (fun _ => throw (ErrorObject "TypeError: Cannot read properties of undefined"))).
  - reflexivity.
  - intros _. now rewrite bind_ret_l, Hb.
Qed.

Lemma select_none {A} (P : Event -> bool) (f : Event -> option A) t :
  (forall e, P e = true -> f e = None) ->
  forallb P t = true -> select f t = [].
Proof.
  intros HP. induction t as [|e t IH]; simpl; [reflexivity|].
  intros [He Ht]%andb_prop. now rewrite (HP e He), IH.
Qed.

Lemma forallb_not_In (P : Event -> bool) t e :
  forallb P t = true -> P e = false -> ~ In e t.
Proof.
  intros Ht He Hin. rewrite forallb_forall in Ht.
  specialize (Ht e Hin). congruence.
Qed.

Lemma setupPhase_events w cwd flags b :
  forallb setupEvent (trace (setupPhase w cwd flags b)) = true.
Proof.
  unfold setupPhase.
  destruct (optTruthy (Manifest.pre b)), (hasFlag flags "reset");
    run_prim;
    repeat match goal with
           | |- context [match ?x with None => _ | Some _ => _ end] => destruct x; simpl
           end; reflexivity.
Qed.

Lemma setupPhase_ok w cwd flags pkg b :
  setupSucceeds w cwd flags pkg b ->
  outcome (setupPhase w cwd flags b) = inr tt.
Proof.
  intros (_ & _ & Hpre & Hreset). unfold setupPhase.
  destruct (optTruthy (Manifest.pre b)), (hasFlag flags "reset");
    run_prim; rewrite ?Hpre, ?Hreset by reflexivity; reflexivity.
Qed.

Lemma setupPhase_ok_inv w cwd flags pkg b u :
  fs_readJson w (Path.join [cwd; "package.json"]) = inr pkg ->
  Manifest.bundler pkg = Some b ->
  outcome (setupPhase w cwd flags b) = inr u ->
  setupSucceeds w cwd flags pkg b.
Proof.
  intros Hread Hb H. repeat split; trivial; intros Hc; revert H;
    unfold setupPhase; rewrite Hc.
  - run_prim. destruct (utils_exec _ _ _); [|reflexivity].
    simpl. discriminate.
  - destruct (optTruthy (Manifest.pre b)); run_prim;
      repeat match goal with
             | |- context [match ?x with None => _ | Some _ => _ end] =>
                 destruct x; simpl
             end; (reflexivity || discriminate).
Qed.

Lemma setupPhase_pre_done w cwd flags b u :
  optTruthy (Manifest.pre b) = true ->
  outcome (setupPhase w cwd flags b) = inr u ->
  In (EvExecDone PreHook (preCommand w b)) (trace (setupPhase w cwd flags b)).
Proof.
  intros Hc. unfold setupPhase. rewrite Hc.
  destruct (hasFlag flags "reset"); run_prim;
    repeat match goal with
           | |- context [match ?x with None => _ | Some _ => _ end] =>
               destruct x; simpl
           end; intros H; (discriminate || auto).
Qed.

Lemma setupPhase_pre_fails w cwd flags b e :
  optTruthy (Manifest.pre b) = true ->
  utils_exec w (preCommand w b) cwd = Some e ->
  outcome (setupPhase w cwd flags b) = inl e.
Proof.
  intros Hc He. unfold setupPhase. rewrite Hc. run_prim. now rewrite He.
Qed.

Lemma runTask_cases w t :
  (outcome (runTask w t) = inr tt
   /\ exists pre, trace (runTask w t) = (pre ++ [EvFulfilled t])%list
        /\ fulfilled pre = []
        /\ written pre = map (mapperWrite w) (mappers [t]))
  \/ ((exists e, outcome (runTask w t) = inl e)
      /\ forallb taskEvent (trace (runTask w t)) = true
      /\ fulfilled (trace (runTask w t)) = []).
Proof.
  destruct t as [o|file]; unfold runTask, generateDTSMapperFile; run_prim.
  - destruct (tsup_build w o); simpl.
    + right; eauto.
    + left; split; [reflexivity|]. now exists [].
  - destruct (fs_ensureFile w _); simpl; [right; eauto|].
    destruct (fs_writeFile w _ _); simpl; [right; eauto|].
    left; split; [reflexivity|].
    eexists [_; _]; simpl; repeat split; reflexivity.
Qed.

Lemma runTask_events w t : forallb taskEvent (trace (runTask w t)) = true.
Proof.
  destruct t as [o|file]; unfold runTask, generateDTSMapperFile; run_prim;
    repeat match goal with
           | |- context [match ?x with None => _ | Some _ => _ end] =>
               destruct x; simpl
           end; reflexivity.
Qed.

Lemma runTask_written_build w o : written (trace (runTask w (BuildTask o))) = [].
Proof.
  unfold runTask; run_prim. now destruct (tsup_build w o).
Qed.

Lemma Promise_all_events w ts :
  forallb taskEvent (trace (Promise_all w ts)) = true.
Proof.
  induction ts as [|t ts IH]; simpl; [reflexivity|].
  rewrite trace_bind, forallb_app, runTask_events; simpl.
  destruct (outcome (runTask w t)); [reflexivity | exact IH].
Qed.

Lemma Promise_all_fulfilled w ts u :
  outcome (Promise_all w ts) = inr u ->
  fulfilled (trace (Promise_all w ts)) = ts
  /\ written (trace (Promise_all w ts)) = map (mapperWrite w) (mappers ts).
Proof.
  induction ts as [|t ts IH]; simpl; [now split|].
  rewrite outcome_bind, trace_bind.
  destruct (runTask_cases w t) as [(Ho & pre & Ht & Hf & Hw)|((e & Ho) & _)];
    rewrite Ho; [|discriminate].
  intros H. destruct (IH H) as [IHf IHw].
  unfold fulfilled, written in *.
  rewrite Ht, !select_app, Hf, Hw, IHf, IHw; simpl.
  split; [reflexivity|].
  rewrite app_nil_r.
  destruct t; simpl; reflexivity.
Qed.

Lemma Promise_all_no_mappers w ts :
  mappers ts = [] -> written (trace (Promise_all w ts)) = [].
Proof.
  induction ts as [|t ts IH]; simpl; [reflexivity|].
  destruct t as [o|file]; simpl; [|discriminate].
  intros H. rewrite trace_bind. unfold written in *.
  rewrite select_app. fold written. rewrite runTask_written_build; simpl.
  destruct (outcome (runTask w (BuildTask o))); [reflexivity | now apply IH].
Qed.

Lemma afterDispatch_eq w cwd b ts :
  afterDispatch w cwd b ts = (Promise_all w ts ;; finishPhase w cwd b).
Proof. reflexivity. Qed.

Lemma finishPhase_events w cwd b :
  forallb finishEvent (trace (finishPhase w cwd b)) = true.
Proof.
  unfold finishPhase.
  destruct (optTruthy (Manifest.post b)), (process_env_CI w) as [v|];
    try destruct (v =? "true"); run_prim;
    repeat match goal with
           | |- context [match ?x with None => _ | Some _ => _ end] =>
               destruct x; simpl
           end; reflexivity.
Qed.

Lemma run_trace w cwd flags pkg b :
  fs_readJson w (Path.join [cwd; "package.json"]) = inr pkg ->
  Manifest.bundler pkg = Some b ->
  trace (run w cwd flags) =
  (trace (setupPhase w cwd flags b)
   ++ match outcome (setupPhase w cwd flags b) with
      | inl _ => []
      | inr _ =>
          map EvDispatch (planTasks w cwd flags pkg b)
          ++ trace (Promise_all w (planTasks w cwd flags pkg b))
          ++ match outcome (Promise_all w (planTasks w cwd flags pkg b)) with
             | inl _ => []
             | inr _ => trace (finishPhase w cwd b)
             end
      end)%list.
Proof.
  intros Hread Hb. rewrite (run_unfold _ _ _ _ _ Hread Hb).
  rewrite trace_bind. f_equal.
  destruct (outcome (setupPhase w cwd flags b)); [reflexivity|].
  rewrite trace_bind. unfold push at 1 2; simpl. f_equal.
  now rewrite afterDispatch_eq, trace_bind.
Qed.

Lemma run_outcome w cwd flags pkg b :
  fs_readJson w (Path.join [cwd; "package.json"]) = inr pkg ->
  Manifest.bundler pkg = Some b ->
  outcome (run w cwd flags) =
  match outcome (setupPhase w cwd flags b) with
  | inl e => inl e
  | inr _ =>
      match outcome (Promise_all w (planTasks w cwd flags pkg b)) with
      | inl e => inl e
      | inr _ => outcome (finishPhase w cwd b)
      end
  end.
Proof.
  intros Hread Hb. rewrite (run_unfold _ _ _ _ _ Hread Hb).
  rewrite outcome_bind.
  destruct (outcome (setupPhase w cwd flags b)); [reflexivity|].
  rewrite outcome_bind. unfold push at 1; simpl.
  now rewrite afterDispatch_eq, outcome_bind.
Qed.

Lemma dispatched_map ts : dispatched (map EvDispatch ts) = ts.
Proof.
  induction ts as [|t ts IH]; [reflexivity|].
  change (t :: dispatched (map EvDispatch ts) = t :: ts). now rewrite IH.
Qed.

Lemma dispatched_setup w cwd flags b :
  dispatched (trace (setupPhase w cwd flags b)) = [].
Proof. no_events (select_none setupEvent) setupPhase_events. Qed.

Lemma dispatched_Promise_all w ts : dispatched (trace (Promise_all w ts)) = [].
Proof. no_events (select_none taskEvent) Promise_all_events. Qed.

Lemma dispatched_finish w cwd b : dispatched (trace (finishPhase w cwd b)) = [].
Proof. no_events (select_none finishEvent) finishPhase_events. Qed.

Lemma run_dispatched_cases w cwd flags pkg b :
  fs_readJson w (Path.join [cwd; "package.json"]) = inr pkg ->
  Manifest.bundler pkg = Some b ->
  dispatched (trace (run w cwd flags)) =
  match outcome (setupPhase w cwd flags b) with
  | inl _ => []
  | inr _ => planTasks w cwd flags pkg b
  end.
Proof.
  intros Hread Hb. rewrite (run_trace _ _ _ _ _ Hread Hb).
  unfold dispatched. rewrite select_app. fold dispatched.
  rewrite dispatched_setup.
  destruct (outcome (setupPhase w cwd flags b)); [reflexivity|].
  unfold dispatched. rewrite !select_app. fold dispatched.
  rewrite dispatched_map, dispatched_Promise_all.
  destruct (outcome (Promise_all _ _)); simpl; rewrite ?dispatched_finish, ?app_nil_r;
    reflexivity.
Qed.

Lemma run_dispatched w cwd flags pkg b :
  setupSucceeds w cwd flags pkg b ->
  dispatched (trace (run w cwd flags)) = planTasks w cwd flags pkg b.
Proof.
  intros H. pose proof (setupPhase_ok _ _ _ _ _ H) as Ho.
  destruct H as (Hread & Hb & _).
  now rewrite (run_dispatched_cases _ _ _ _ _ Hread Hb), Ho.
Qed.

Lemma In_dispatched t (T : list Event) :
  In (EvDispatch t) T <-> In t (dispatched T).
Proof.
  unfold dispatched. rewrite select_In. split.
  - intros H. now exists (EvDispatch t).
  - intros (e & He & Hf). destruct e; try discriminate.
    now injection Hf as ->.
Qed.

Lemma run_dispatch_inv w cwd flags pkg b t :
  fs_readJson w (Path.join [cwd; "package.json"]) = inr pkg ->
  Manifest.bundler pkg = Some b ->
  In (EvDispatch t) (trace (run w cwd flags)) ->
  In t (planTasks w cwd flags pkg b).
Proof.
  intros Hread Hb. rewrite In_dispatched, (run_dispatched_cases _ _ _ _ _ Hread Hb).
  now destruct (outcome _).
Qed.

Lemma planTasks_build w cwd flags pkg b o :
  In (BuildTask o) (planTasks w cwd flags pkg b) ->
  (o = planEsm w cwd flags pkg b /\ existsb (Formats_eqb esm) (planFormats b) = true)
  \/ (o = planCjs w cwd flags pkg b /\ existsb (Formats_eqb cjs) (planFormats b) = true).
Proof.
  unfold planTasks. rewrite !in_app_iff.
  intros [H|[H|H]].
  - destruct (existsb (Formats_eqb esm) _); [|contradiction].
    destruct H as [[= <-]|[]]. now left.
  - destruct (existsb (Formats_eqb cjs) _); [|contradiction].
    destruct H as [[= <-]|[]]. now right.
  - destruct (_ && _); [|contradiction].
    apply in_map_iff in H as (f & [=] & _).
Qed.

Lemma exampleWorld_setup fmts args :
  setupSucceeds (exampleWorld fmts args None) "/repo/pkg" args
    (examplePackage fmts) (exampleBundler fmts).
Proof. repeat split. Qed.





(** The built-in list adds nothing: the [external] list of the ESM build is
    the plain list of externals, whatever the platform. *)
Lemma esm_external_is_externals w cwd flags pkg b :
  Tsup.external (planEsm w cwd flags pkg b) = planExternals pkg b.
Proof.
  unfold planEsm, esmOptions, planExternals; simpl.
  destruct (Manifest.platform b) as [[]|]; try reflexivity.
  change nodeInternals with (@nil string). simpl. now rewrite app_nil_r.
Qed.

(** C2. At the manifest of [specWorld] (platform [node]) the [external]
    list of the dispatched ESM build is the package name, the extra
    externals, the dependency names and the peer-dependency names and
    nothing more: [nodeInternals] evaluates to the empty list, so no
    built-in module name, bare or with the [node:] prefix, is in it. *)
Theorem esm_external_lacks_node_builtins :
  nodeInternals = []
  /\ exists o,
      In (EvDispatch (BuildTask o)) (trace (run specWorld "/repo/pkg" []))
      /\ Tsup.format o = [esm]
      /\ Tsup.external o = ["@storybook/example"; "lodash"; "react"]
      /\ ~ In "fs" (Tsup.external o)
      /\ ~ In "node:fs" (Tsup.external o).
Proof.
  split; [reflexivity|].
  exists (planEsm specWorld "/repo/pkg" [] (examplePackage (Some [esm; cjs]))
            (exampleBundler (Some [esm; cjs]))).
  split; [simpl; find_in_list|].
  split; [reflexivity|]. split; [reflexivity|].
  split; vm_compute; intros H; repeat destruct H as [H|H]; discriminate || exact H.
Qed.

(** The package's own name heads the [external] list of every dispatched
    build, whatever the manifest's dependencies. *)
Lemma own_name_is_external w cwd flags pkg b o :
  fs_readJson w (Path.join [cwd; "package.json"]) = inr pkg ->
  Manifest.bundler pkg = Some b ->
  In (EvDispatch (BuildTask o)) (trace (run w cwd flags)) ->
  In (Manifest.name pkg) (Tsup.external o).
Proof.
  intros Hread Hb Hin.
  apply (run_dispatch_inv _ _ _ _ _ _ Hread Hb), planTasks_build in Hin.
  destruct Hin as [[-> _]|[-> _]]; simpl.
  - destruct (Manifest.platform b) as [[]|]; simpl; auto.
  - auto.
Qed.

(** C6 (as stated, refuted). With [--optimized] the esbuild options of the
    dispatched ESM build turn whitespace minification on. *)
Lemma optimized_minifies_whitespace :
  exists o,
    In (EvDispatch (BuildTask o)) (trace (run optimizedWorld "/repo/pkg" ["--optimized"]))
    /\ hasFlag ["--optimized"] "optimized" = true
    /\ ESBuild.minifySyntax (Tsup.esbuildOptions o anESBuildConfig) = true
    /\ ESBuild.minifyWhitespace (Tsup.esbuildOptions o anESBuildConfig) = true.
Proof.
  exists (planEsm optimizedWorld "/repo/pkg" ["--optimized"]
            (examplePackage (Some [esm; cjs])) (exampleBundler (Some [esm; cjs]))).
  split; [simpl; find_in_list|].
  split; [reflexivity|]. split; reflexivity.
Qed.

(** C6 (amended). In the esbuild options of every dispatched build, syntax
    minification and whitespace minification are both on exactly when the
    [optimized] flag is set, and identifier minification is off. *)
Theorem minification_follows_optimized w cwd flags pkg b o c :
  fs_readJson w (Path.join [cwd; "package.json"]) = inr pkg ->
  Manifest.bundler pkg = Some b ->
  In (EvDispatch (BuildTask o)) (trace (run w cwd flags)) ->
  ESBuild.minifySyntax (Tsup.esbuildOptions o c) = hasFlag flags "optimized"
  /\ ESBuild.minifyWhitespace (Tsup.esbuildOptions o c) = hasFlag flags "optimized"
  /\ ESBuild.minifyIdentifiers (Tsup.esbuildOptions o c) = false.
Proof.
  intros Hread Hb Hin.
  apply (run_dispatch_inv _ _ _ _ _ _ Hread Hb), planTasks_build in Hin.
  destruct Hin as [[-> _]|[-> _]]; repeat split.
Qed.

Lemma minification_follows_optimized_witness :
  ESBuild.minifySyntax
    (Tsup.esbuildOptions
       (planCjs specWorld "/repo/pkg" [] (examplePackage (Some [esm; cjs]))
          (exampleBundler (Some [esm; cjs]))) anESBuildConfig) = false
  /\ ESBuild.minifyWhitespace
       (Tsup.esbuildOptions
          (planCjs specWorld "/repo/pkg" [] (examplePackage (Some [esm; cjs]))
             (exampleBundler (Some [esm; cjs]))) anESBuildConfig) = false
  /\ ESBuild.minifyIdentifiers
       (Tsup.esbuildOptions
          (planCjs specWorld "/repo/pkg" [] (examplePackage (Some [esm; cjs]))
             (exampleBundler (Some [esm; cjs]))) anESBuildConfig) = false.
Proof.
  apply (minification_follows_optimized specWorld "/repo/pkg" []
           (examplePackage (Some [esm; cjs])) (exampleBundler (Some [esm; cjs]))).
  - reflexivity.
  - reflexivity.
  - simpl. find_in_list.
Defined.

(** C5 (as stated, refuted). A manifest that declares [formats: []]: the
    run succeeds and dispatches no build at all. *)
Lemma empty_formats_dispatch_no_build :
  setupSucceeds (exampleWorld (Some []) [] None) "/repo/pkg" []
    (examplePackage (Some [])) (exampleBundler (Some []))
  /\ Manifest.formats (exampleBundler (Some [])) = Some []
  /\ outcome (run (exampleWorld (Some []) [] None) "/repo/pkg" []) = inr tt
  /\ builds (dispatched (trace (run (exampleWorld (Some []) [] None) "/repo/pkg" []))) = [].
Proof.
  split; [apply exampleWorld_setup|].
  split; [reflexivity|]. split; vm_compute; reflexivity.
Qed.

Lemma builds_app xs ys : builds (xs ++ ys) = (builds xs ++ builds ys)%list.
Proof. apply flat_map_app. Qed.

Lemma mappers_app xs ys : mappers (xs ++ ys) = (mappers xs ++ mappers ys)%list.
Proof. apply flat_map_app. Qed.

Lemma builds_MapperTask fs : builds (map MapperTask fs) = [].
Proof. induction fs as [|f fs IH]; [reflexivity | exact IH]. Qed.

Lemma mappers_MapperTask fs : mappers (map MapperTask fs) = fs.
Proof.
  induction fs as [|f fs IH]; [reflexivity|].
  change (f :: mappers (map MapperTask fs) = f :: fs). now rewrite IH.
Qed.

Lemma planTasks_builds w cwd flags pkg b :
  builds (planTasks w cwd flags pkg b) =
  ((if existsb (Formats_eqb esm) (planFormats b) then [planEsm w cwd flags pkg b] else [])
   ++ (if existsb (Formats_eqb cjs) (planFormats b) then [planCjs w cwd flags pkg b] else []))%list.
Proof.
  unfold planTasks. rewrite !builds_app.
  destruct (existsb (Formats_eqb esm) _), (existsb (Formats_eqb cjs) _),
    (_ && _); simpl; rewrite ?builds_MapperTask; reflexivity.
Qed.

Lemma planTasks_mappers w cwd flags pkg b :
  mappers (planTasks w cwd flags pkg b) =
  if fs_pathExists w (planTsConfigPath w) && negb (planOptimized flags)
  then planEntries b else [].
Proof.
  unfold planTasks. rewrite !mappers_app.
  destruct (existsb (Formats_eqb esm) _), (existsb (Formats_eqb cjs) _),
    (_ && _); simpl; rewrite ?mappers_MapperTask; reflexivity.
Qed.

(** C5 (amended). When the manifest's bundler section has no [formats]
    field, the builds dispatched are the ESM one and then the CommonJS one,
    as for [formats: ['esm', 'cjs']]. *)
Theorem absent_formats_default_to_both w cwd flags pkg b :
  setupSucceeds w cwd flags pkg b ->
  Manifest.formats b = None ->
  planFormats b = [esm; cjs]
  /\ exists o1 o2,
      builds (dispatched (trace (run w cwd flags))) = [o1; o2]
      /\ Tsup.format o1 = [esm] /\ Tsup.format o2 = [cjs].
Proof.
  intros Hs Hf.
  assert (Hp : planFormats b = [esm; cjs]) by (unfold planFormats; now rewrite Hf).
  split; [exact Hp|].
  rewrite (run_dispatched _ _ _ _ _ Hs), planTasks_builds, Hp; simpl.
  exists (planEsm w cwd flags pkg b), (planCjs w cwd flags pkg b).
  repeat split.
Qed.

Lemma absent_formats_default_to_both_witness :
  planFormats (exampleBundler None) = [esm; cjs]
  /\ exists o1 o2,
      builds (dispatched (trace (run (exampleWorld None [] None) "/repo/pkg" [])))
      = [o1; o2]
      /\ Tsup.format o1 = [esm] /\ Tsup.format o2 = [cjs].
Proof.
  apply (absent_formats_default_to_both (exampleWorld None [] None) "/repo/pkg" []
           (examplePackage None) (exampleBundler None)).
  - apply exampleWorld_setup.
  - reflexivity.
Defined.

Lemma written_setup w cwd flags b : written (trace (setupPhase w cwd flags b)) = [].
Proof. no_events (select_none setupEvent) setupPhase_events. Qed.

Lemma written_finish w cwd b : written (trace (finishPhase w cwd b)) = [].
Proof. no_events (select_none finishEvent) finishPhase_events. Qed.

Lemma written_dispatch ts : written (map EvDispatch ts) = [].
Proof. induction ts as [|t ts IH]; [reflexivity | exact IH]. Qed.

Lemma run_written w cwd flags pkg b :
  fs_readJson w (Path.join [cwd; "package.json"]) = inr pkg ->
  Manifest.bundler pkg = Some b ->
  written (trace (run w cwd flags)) =
  match outcome (setupPhase w cwd flags b) with
  | inl _ => []
  | inr _ => written (trace (Promise_all w (planTasks w cwd flags pkg b)))
  end.
Proof.
  intros Hread Hb. rewrite (run_trace _ _ _ _ _ Hread Hb).
  unfold written. rewrite select_app. fold written. rewrite written_setup.
  destruct (outcome (setupPhase w cwd flags b)); [reflexivity|].
  unfold written. rewrite !select_app. fold written.
  rewrite written_dispatch; simpl.
  destruct (outcome (Promise_all _ _)); rewrite ?written_finish, app_nil_r;
    reflexivity.
Qed.

(** C3. With the [optimized] flag, a [tsconfig.json] at the package root
    and a non-empty format list [f0 :: rest]: nothing is written by the
    mapper (no mapper task is even dispatched), and among the dispatched
    builds exactly one carries the declaration section, the build whose
    format is [f0]. *)
Theorem optimized_attaches_dts_to_first_format w cwd flags pkg b f0 rest :
  setupSucceeds w cwd flags pkg b ->
  planFormats b = f0 :: rest ->
  fs_pathExists w (Path.join [process_cwd w; "tsconfig.json"]) = true ->
  hasFlag flags "optimized" = true ->
  written (trace (run w cwd flags)) = []
  /\ mappers (dispatched (trace (run w cwd flags))) = []
  /\ exists o,
      filter hasDts (builds (dispatched (trace (run w cwd flags)))) = [o]
      /\ Tsup.format o = [f0]
      /\ Tsup.dts o = Some {| Tsup.tsconfig := Path.join [process_cwd w; "tsconfig.json"];
                              Tsup.dts_entry := planEntries b;
                              Tsup.dts_resolve := true |}.
Proof.
  intros Hs Hf Hts Hopt.
  pose proof (setupPhase_ok _ _ _ _ _ Hs) as Hok.
  pose proof Hs as (Hread & Hb & _).
  assert (Hm : mappers (planTasks w cwd flags pkg b) = []).
  { rewrite planTasks_mappers. unfold planOptimized. rewrite Hopt.
    now rewrite andb_false_r. }
  split; [|split].
  - rewrite (run_written _ _ _ _ _ Hread Hb), Hok.
    now apply Promise_all_no_mappers.
  - now rewrite (run_dispatched _ _ _ _ _ Hs).
  - rewrite (run_dispatched _ _ _ _ _ Hs), planTasks_builds.
    unfold planEsm, planCjs, esmOptions, cjsOptions, hasDts, planDts,
      planTsConfigPath, planOptimized.
    rewrite Hf, Hts, Hopt; simpl.
    destruct f0; simpl; destruct (existsb _ rest); simpl;
      (eexists; split; [reflexivity | split; reflexivity]).
Qed.

Lemma optimized_attaches_dts_to_first_format_witness :
  written (trace (run optimizedWorld "/repo/pkg" ["--optimized"])) = []
  /\ mappers (dispatched (trace (run optimizedWorld "/repo/pkg" ["--optimized"]))) = []
  /\ exists o,
      filter hasDts
        (builds (dispatched (trace (run optimizedWorld "/repo/pkg" ["--optimized"])))) = [o]
      /\ Tsup.format o = [esm]
      /\ Tsup.dts o = Some {| Tsup.tsconfig := Path.join ["/repo/pkg"; "tsconfig.json"];
                              Tsup.dts_entry := planEntries (exampleBundler (Some [esm; cjs]));
                              Tsup.dts_resolve := true |}.
Proof.
  apply (optimized_attaches_dts_to_first_format optimizedWorld "/repo/pkg"
           ["--optimized"] (examplePackage (Some [esm; cjs]))
           (exampleBundler (Some [esm; cjs])) esm [cjs]).
  - apply exampleWorld_setup.
  - reflexivity.
  - reflexivity.
  - reflexivity.
Defined.

Lemma forallb_weaken (P Q : Event -> bool) t :
  (forall e, P e = true -> Q e = true) ->
  forallb P t = true -> forallb Q t = true.
Proof.
  intros H. rewrite !forallb_forall. auto.
Qed.

Lemma forallb_dispatch ts : forallb runEvent (map EvDispatch ts) = true.
Proof. induction ts as [|t ts IH]; [reflexivity | exact IH]. Qed.

Lemma run_events w cwd flags : forallb runEvent (trace (run w cwd flags)) = true.
Proof.
  destruct (fs_readJson w (Path.join [cwd; "package.json"])) as [e|pkg] eqn:Hread.
  - now rewrite (run_read_fails _ _ _ _ Hread).
  - destruct (Manifest.bundler pkg) as [b|] eqn:Hb.
    + rewrite (run_trace _ _ _ _ _ Hread Hb), forallb_app.
      rewrite (forallb_weaken setupEvent runEvent _ ltac:(now intros [| [] | [] | | | | | | | | | ])
                 (setupPhase_events _ _ _ _)); simpl.
      destruct (outcome (setupPhase _ _ _ _)); [reflexivity|].
      rewrite !forallb_app, forallb_dispatch.
      rewrite (forallb_weaken taskEvent runEvent _ ltac:(now intros [| [] | [] | | | | | | | | | ])
                 (Promise_all_events _ _)); simpl.
      destruct (outcome (Promise_all _ _)); [reflexivity|].
      apply (forallb_weaken finishEvent runEvent); [|apply finishPhase_events].
      now intros [| [] | [] | | | | | | | | | ].
    + now rewrite (run_no_bundler _ _ _ _ Hread Hb).
Qed.

Lemma stderr_run w cwd flags : stderr (trace (run w cwd flags)) = [].
Proof. no_events (select_none runEvent) run_events. Qed.

Lemma exits_run w cwd flags :
  select (fun e => match e with EvExit c => Some c | _ => None end)
    (trace (run w cwd flags)) = [].
Proof. no_events (select_none runEvent) run_events. Qed.

(** A run that fails before any task is dispatched is rejected with the
    error of the step that failed: the manifest load or the pre-hook. *)
Lemma failures_reject_run w cwd flags :
  (forall e,
      fs_readJson w (Path.join [cwd; "package.json"]) = inl e ->
      outcome (run w cwd flags) = inl e)
  /\ (forall pkg b e,
         fs_readJson w (Path.join [cwd; "package.json"]) = inr pkg ->
         Manifest.bundler pkg = Some b ->
         optTruthy (Manifest.pre b) = true ->
         utils_exec w (preCommand w b) cwd = Some e ->
         outcome (run w cwd flags) = inl e).
Proof.
  split.
  - intros e H. now rewrite (run_read_fails _ _ _ _ H).
  - intros pkg b e Hread Hb Hpre He.
    now rewrite (run_outcome _ _ _ _ _ Hread Hb),
      (setupPhase_pre_fails _ _ _ _ _ Hpre He).
Qed.

(** C7 (as stated, refuted). A pre-hook that rejects with a value that is
    not an [Error]: the process exits with code 1 and nothing is printed to
    the error stream. *)
Lemma non_error_rejection_prints_nothing :
  outcome (run (exampleWorld None [] (Some (OtherValue "hook failed")))
             "/repo/pkg" []) = inl (OtherValue "hook failed")
  /\ exitCode (main (exampleWorld None [] (Some (OtherValue "hook failed")))) = 1
  /\ stderr (main (exampleWorld None [] (Some (OtherValue "hook failed")))) = [].
Proof. repeat split; vm_compute; reflexivity. Qed.

(** C7 (amended). A run that is rejected makes the process exit with code
    1; the error stream then holds the [stack] of the rejection reason when
    that reason is an [Error] object, and nothing otherwise.  A run that is
    fulfilled prints nothing to the error stream and the process ends with
    code 0. *)
Theorem exit_code_and_error_stream w :
  match outcome (run w (process_cwd w) (skipn 2 (process_argv w))) with
  | inr _ => exitCode (main w) = 0 /\ stderr (main w) = []
  | inl (ErrorObject stack) => exitCode (main w) = 1 /\ stderr (main w) = [stack]
  | inl (OtherValue _) => exitCode (main w) = 1 /\ stderr (main w) = []
  end.
Proof.
  unfold main, exitCode.
  pose proof (stderr_run w (process_cwd w) (skipn 2 (process_argv w))) as He.
  pose proof (exits_run w (process_cwd w) (skipn 2 (process_argv w))) as Hx.
  destruct (run w (process_cwd w) (skipn 2 (process_argv w))) as [t [[stack|v]|u]];
    simpl in *; unfold stderr in *; rewrite ?select_app, ?He, ?Hx; simpl; auto.
Qed.

Lemma stdout_setup w cwd flags b : stdout (trace (setupPhase w cwd flags b)) = [].
Proof. no_events (select_none setupEvent) setupPhase_events. Qed.

Lemma stdout_Promise_all w ts : stdout (trace (Promise_all w ts)) = [].
Proof. no_events (select_none taskEvent) Promise_all_events. Qed.

Lemma stdout_dispatch ts : stdout (map EvDispatch ts) = [].
Proof. induction ts as [|t ts IH]; [reflexivity | exact IH]. Qed.

Lemma stdout_finish w cwd b u :
  outcome (finishPhase w cwd b) = inr u ->
  stdout (trace (finishPhase w cwd b)) = if ciIsTrue w then [] else ["done"].
Proof.
  unfold finishPhase, ciIsTrue.
  destruct (optTruthy (Manifest.post b)), (process_env_CI w) as [v|];
    try destruct (v =? "true"); run_prim;
    repeat match goal with
           | |- context [match ?x with None => _ | Some _ => _ end] =>
               destruct x; simpl
           end; intros H; (discriminate || reflexivity).
Qed.

(** C9 (as stated, refuted). With [CI=1], and likewise with [CI=TRUE] or
    [CI=yes], the run is fulfilled and the completion message is printed:
    a true-like value other than the string [true] does not suppress
    it. *)
Lemma true_like_CI_still_prints_done :
  outcome (run (ciWorld "1") "/repo/pkg" []) = inr tt
  /\ stdout (trace (run (ciWorld "1") "/repo/pkg" [])) = ["done"]
  /\ stdout (trace (run (ciWorld "TRUE") "/repo/pkg" [])) = ["done"]
  /\ stdout (trace (run (ciWorld "yes") "/repo/pkg" [])) = ["done"].
Proof. repeat split; vm_compute; reflexivity. Qed.

(** C9 (amended). After a run that is fulfilled, the standard output holds
    the one line [done], unless the environment variable [CI] is exactly
    the string [true], in which case it holds nothing. *)
Theorem completion_message_unless_CI w cwd flags u :
  outcome (run w cwd flags) = inr u ->
  (process_env_CI w = Some "true" -> stdout (trace (run w cwd flags)) = [])
  /\ (process_env_CI w <> Some "true" -> stdout (trace (run w cwd flags)) = ["done"]).
Proof.
  intros Hok.
  destruct (fs_readJson w (Path.join [cwd; "package.json"])) as [e|pkg] eqn:Hread;
    [now rewrite (run_read_fails _ _ _ _ Hread) in Hok|].
  destruct (Manifest.bundler pkg) as [b|] eqn:Hb;
    [|now rewrite (run_no_bundler _ _ _ _ Hread Hb) in Hok].
  rewrite (run_outcome _ _ _ _ _ Hread Hb) in Hok.
  rewrite (run_trace _ _ _ _ _ Hread Hb).
  unfold stdout. rewrite select_app. fold stdout. rewrite stdout_setup.
  destruct (outcome (setupPhase _ _ _ _)); [discriminate|].
  unfold stdout. rewrite !select_app. fold stdout.
  rewrite stdout_dispatch, stdout_Promise_all.
  destruct (outcome (Promise_all _ _)); [discriminate|].
  rewrite (stdout_finish _ _ _ _ Hok); simpl. unfold ciIsTrue.
  split.
  - intros ->. reflexivity.
  - intros Hne. destruct (process_env_CI w) as [v|]; [|reflexivity].
    destruct (String.eqb_spec v "true"); [congruence | reflexivity].
Qed.

Lemma completion_message_unless_CI_witness :
  stdout (trace (run (ciWorld "true") "/repo/pkg" [])) = []
  /\ stdout (trace (run specWorld "/repo/pkg" [])) = ["done"].
Proof.
  split.
  - apply (completion_message_unless_CI (ciWorld "true") "/repo/pkg" [] tt).
    + vm_compute. reflexivity.
    + reflexivity.
  - apply (completion_message_unless_CI specWorld "/repo/pkg" [] tt).
    + vm_compute. reflexivity.
    + discriminate.
Defined.

Lemma split_after_prefix {A} (x : A) (P R l1 l2 : list A) :
  ~ In x P ->
  (l1 ++ x :: l2 = P ++ R)%list ->
  exists l1', l1 = (P ++ l1')%list /\ (l1' ++ x :: l2)%list = R.
Proof.
  revert l1. induction P as [|p P IH]; intros l1 Hn H.
  - exists l1. now split.
  - destruct l1 as [|a l1]; simpl in H; injection H as -> H.
    + exfalso. apply Hn. now left.
    + destruct (IH l1) as (l1' & -> & HR); [intros Hx; apply Hn; now right | exact H |].
      exists l1'. now split.
Qed.

Lemma fulfilled_setup w cwd flags b : fulfilled (trace (setupPhase w cwd flags b)) = [].
Proof. no_events (select_none setupEvent) setupPhase_events. Qed.

Lemma fulfilled_dispatch ts : fulfilled (map EvDispatch ts) = [].
Proof. induction ts as [|t ts IH]; [reflexivity | exact IH]. Qed.

Lemma not_In_dispatch e ts :
  match e with EvDispatch _ => False | _ => True end ->
  ~ In e (map EvDispatch ts).
Proof.
  intros He [t [<- _]]%in_map_iff. exact He.
Qed.

Lemma finishPhase_post w cwd b :
  optTruthy (Manifest.post b) = true ->
  exists F,
    trace (finishPhase w cwd b) = EvExecStart PostHook (postCommand w b) :: F
    /\ ~ In (EvExecStart PostHook (postCommand w b)) F.
Proof.
  intros Hc. unfold finishPhase. rewrite Hc.
  destruct (process_env_CI w) as [v|]; try destruct (v =? "true"); run_prim;
    destruct (utils_exec w _ _); simpl; eexists; (split; [reflexivity|]);
    simpl; intuition discriminate.
Qed.

(** C8. With a pre-hook and a post-hook configured: (1) whenever a task is
    dispatched, the pre-hook process has ended before; (2) when the
    post-hook process starts, every dispatched task has been fulfilled
    before, every mapper file of a dispatched mapper task has been written
    before, and nothing is dispatched afterwards; (3) when the pre-hook
    fails, no task is dispatched. *)
Theorem hooks_are_barriers w cwd flags pkg b :
  fs_readJson w (Path.join [cwd; "package.json"]) = inr pkg ->
  Manifest.bundler pkg = Some b ->
  optTruthy (Manifest.pre b) = true ->
  optTruthy (Manifest.post b) = true ->
  (forall l1 t l2,
      trace (run w cwd flags) = (l1 ++ EvDispatch t :: l2)%list ->
      In (EvExecDone PreHook (preCommand w b)) l1)
  /\ (forall l1 l2,
         trace (run w cwd flags)
         = (l1 ++ EvExecStart PostHook (postCommand w b) :: l2)%list ->
         fulfilled l1 = dispatched (trace (run w cwd flags))
         /\ written l1
            = map (mapperWrite w) (mappers (dispatched (trace (run w cwd flags))))
         /\ dispatched l2 = [])
  /\ (forall e,
         utils_exec w (preCommand w b) cwd = Some e ->
         dispatched (trace (run w cwd flags)) = []).
Proof.
  intros Hread Hb Hpre Hpost.
  pose proof (run_dispatched_cases w cwd flags pkg b Hread Hb) as Hd.
  pose proof (run_trace w cwd flags pkg b Hread Hb) as HT.
  pose proof (setupPhase_events w cwd flags b) as HS.
  split; [|split].
  - intros l1 t l2 E. rewrite E in HT. symmetry in HT.
    destruct (outcome (setupPhase w cwd flags b)) as [e|u] eqn:Ho.
    + exfalso. rewrite app_nil_r in HT.
      apply (forallb_not_In _ _ (EvDispatch t) HS eq_refl).
      rewrite HT. apply in_elt.
    + symmetry in HT.
      apply split_after_prefix in HT as (l1' & -> & _);
        [|now apply (forallb_not_In _ _ _ HS)].
      apply in_or_app. left. now apply (setupPhase_pre_done _ _ _ _ u).
  - intros l1 l2 E. rewrite Hd. rewrite E in HT.
    set (x := EvExecStart PostHook (postCommand w b)) in *.
    destruct (outcome (setupPhase w cwd flags b)) as [e|u] eqn:Ho.
    + exfalso. rewrite app_nil_r in HT.
      apply (forallb_not_In _ _ x HS eq_refl).
      rewrite <- HT. apply in_elt.
    + set (ts := planTasks w cwd flags pkg b) in *.
      pose proof (Promise_all_events w ts) as HP.
      apply split_after_prefix in HT as (l1' & -> & HT);
        [|now apply (forallb_not_In _ _ _ HS)].
      apply split_after_prefix in HT as (l1'' & -> & HT);
        [|now apply not_In_dispatch].
      apply split_after_prefix in HT as (l3 & -> & HT);
        [|now apply (forallb_not_In _ _ _ HP)].
      destruct (outcome (Promise_all w ts)) as [e|u'] eqn:Hpa;
        [now destruct l3|].
      destruct (finishPhase_post w cwd b Hpost) as (F & HF & HnF).
      rewrite HF in HT. fold x in HT, HnF.
      destruct l3 as [|y l3]; simpl in HT;
        [injection HT as HT | injection HT as -> HT].
      * destruct (Promise_all_fulfilled _ _ _ Hpa) as [Hf Hw].
        unfold fulfilled, written. rewrite !select_app, !app_nil_r.
        fold fulfilled written.
        rewrite fulfilled_setup, fulfilled_dispatch, written_setup,
          written_dispatch, Hf, Hw; simpl.
        repeat split.
        pose proof (finishPhase_events w cwd b) as Hfe. rewrite HF in Hfe.
        simpl in Hfe. subst l2.
        no_events (select_none finishEvent) Hfe.
      * exfalso. apply HnF. rewrite <- HT. apply in_elt.
  - intros e He. rewrite Hd.
    now rewrite (setupPhase_pre_fails _ _ _ _ _ Hpre He).
Qed.

Lemma hooks_are_barriers_witness :
  In (EvExecDone PreHook
        (preCommand specWorld (exampleBundler (Some [esm; cjs]))))
     (firstn 4 (trace (run specWorld "/repo/pkg" [])))
  /\ fulfilled (firstn 16 (trace (run specWorld "/repo/pkg" [])))
     = dispatched (trace (run specWorld "/repo/pkg" [])).
Proof.
  destruct (hooks_are_barriers specWorld "/repo/pkg" []
              (examplePackage (Some [esm; cjs])) (exampleBundler (Some [esm; cjs]))
              eq_refl eq_refl eq_refl eq_refl) as (Hpre & Hpost & _).
  split.
  - apply (Hpre _ (BuildTask (planEsm specWorld "/repo/pkg" []
                                (examplePackage (Some [esm; cjs]))
                                (exampleBundler (Some [esm; cjs]))))
             (skipn 5 (trace (run specWorld "/repo/pkg" [])))).
    reflexivity.
  - apply (Hpost _ (skipn 17 (trace (run specWorld "/repo/pkg" [])))).
    reflexivity.
Defined.

(** ** Facts on strings and paths *)

Module PathFacts.
Import JsString Path.

Lemma append_assoc (a b c : string) : (a ++ b) ++ c = a ++ (b ++ c).
Proof. induction a as [|x a IH]; simpl; [reflexivity | now rewrite IH]. Qed.

Lemma append_eq_nil (a b : string) : a ++ b = "" -> a = "" /\ b = "".
Proof. destruct a; simpl; [auto | discriminate]. Qed.

Lemma hasChar_app c a b : hasChar c (a ++ b) = hasChar c a || hasChar c b.
Proof.
  induction a as [|x a IH]; simpl; [reflexivity|].
  now rewrite IH, orb_assoc.
Qed.

Lemma split_nonempty c s : split c s <> [].
Proof.
  destruct s as [|x r]; simpl; [discriminate|].
  destruct (Ascii.eqb x c); [discriminate|].
  destruct (split c r); discriminate.
Qed.

Lemma split_plain c s : hasChar c s = false -> split c s = [s].
Proof.
  induction s as [|x r IH]; simpl; [reflexivity|].
  intros [Hx Hr]%orb_false_elim. rewrite Hx, (IH Hr). reflexivity.
Qed.

Lemma split_app_sep c a b :
  split c (a ++ String c b) = (split c a ++ split c b)%list.
Proof.
  induction a as [|x a IH]; simpl.
  - now rewrite Ascii.eqb_refl.
  - destruct (Ascii.eqb x c); rewrite IH; [reflexivity|].
    pose proof (split_nonempty c a).
    destruct (split c a); [contradiction | reflexivity].
Qed.

Lemma joinBy_cons sp x y t : joinBy sp (x :: y :: t) = x ++ sp ++ joinBy sp (y :: t).
Proof. reflexivity. Qed.

Lemma joinBy_app_last sp xs y :
  xs <> [] -> joinBy sp (xs ++ [y]) = joinBy sp xs ++ sp ++ y.
Proof.
  induction xs as [|x xs IH]; [contradiction|]. intros _.
  destruct xs as [|x' xs]; [reflexivity|].
  change (x ++ sp ++ joinBy sp ((x' :: xs) ++ [y]) = (x ++ sp ++ joinBy sp (x' :: xs)) ++ sp ++ y).
  rewrite IH by discriminate. now rewrite !append_assoc.
Qed.

Lemma joinBy_app sp xs ys :
  xs <> [] -> ys <> [] ->
  joinBy sp (xs ++ ys) = joinBy sp xs ++ sp ++ joinBy sp ys.
Proof.
  induction xs as [|x xs IH]; [contradiction|]. intros _ Hy.
  destruct xs as [|x' xs].
  - destruct ys; [contradiction | reflexivity].
  - change (x ++ sp ++ joinBy sp ((x' :: xs) ++ ys)
            = (x ++ sp ++ joinBy sp (x' :: xs)) ++ sp ++ joinBy sp ys).
    rewrite IH by (discriminate || assumption). now rewrite !append_assoc.
Qed.

Lemma split_joinBy xs :
  xs <> [] -> forallb noSep xs = true ->
  split sep (joinBy "/" xs) = xs.
Proof.
  induction xs as [|x xs IH]; [contradiction|]. intros _ H.
  simpl in H. apply andb_prop in H as [Hx Hxs].
  unfold noSep in Hx. apply negb_true_iff in Hx.
  destruct xs as [|y t]; [now apply split_plain|].
  rewrite joinBy_cons. change ("/" ++ joinBy "/" (y :: t)) with (String sep (joinBy "/" (y :: t))).
  rewrite split_app_sep, (split_plain _ _ Hx), IH by (discriminate || assumption).
  reflexivity.
Qed.

Lemma joinBy_split s : joinBy "/" (split sep s) = s.
Proof.
  induction s as [|x r IH]; [reflexivity|]. simpl.
  pose proof (split_nonempty sep r) as Hne.
  destruct (Ascii.eqb_spec x sep) as [->|_];
    destruct (split sep r) as [|h t]; try contradiction.
  - rewrite joinBy_cons, IH. reflexivity.
  - destruct t; simpl in *; now rewrite IH.
Qed.

Lemma rsplit_none c s : hasChar c s = false -> rsplit c s = None.
Proof.
  induction s as [|x r IH]; simpl; [reflexivity|].
  intros [Hx Hr]%orb_false_elim. now rewrite (IH Hr), Hx.
Qed.

Lemma rsplit_app c a b :
  hasChar c b = false -> rsplit c (a ++ String c b) = Some (a, b).
Proof.
  intros Hb. induction a as [|x a IH]; simpl.
  - now rewrite (rsplit_none _ _ Hb), Ascii.eqb_refl.
  - now rewrite IH.
Qed.

Lemma stripTrailingSep_plain b :
  hasChar sep b = false -> stripTrailingSep b = b.
Proof.
  induction b as [|x r IH]; simpl; [reflexivity|].
  intros [Hx Hr]%orb_false_elim. now rewrite (IH Hr), Hx.
Qed.

Lemma stripTrailingSep_app a b :
  b <> "" -> hasChar sep b = false -> stripTrailingSep (a ++ b) = a ++ b.
Proof.
  intros Hne Hb. induction a as [|x a IH]; simpl.
  - now apply stripTrailingSep_plain.
  - rewrite IH.
    destruct (String.eqb_spec (a ++ b) "") as [E|_].
    + apply append_eq_nil in E as [_ E]. contradiction.
    + now rewrite andb_false_r.
Qed.

Lemma endsWithSep_app a b :
  b <> "" -> hasChar sep b = false -> endsWithSep (a ++ b) = false.
Proof.
  intros Hne Hb. induction a as [|x a IH]; simpl.
  - clear Hne. induction b as [|y r IH]; [reflexivity|].
    simpl in Hb. apply orb_false_elim in Hb as [Hy Hr].
    simpl. destruct r; [exact Hy | now apply IH].
  - destruct (a ++ b) eqn:E; [|exact IH].
    apply append_eq_nil in E as [_ E]. contradiction.
Qed.

Lemma plainSegment_noSep s : plainSegment s = true -> noSep s = true.
Proof. unfold plainSegment. now intros [_ H]%andb_prop. Qed.

Lemma plainSegment_nonempty s : plainSegment s = true -> s <> "".
Proof.
  unfold plainSegment. intros [[[H _]%andb_prop _]%andb_prop _]%andb_prop.
  now destruct (String.eqb_spec s "").
Qed.

Lemma forallb_plain_noSep xs :
  forallb plainSegment xs = true -> forallb noSep xs = true.
Proof.
  rewrite !forallb_forall. intros H x Hx. apply plainSegment_noSep; auto.
Qed.

Lemma normStep_plain a acc s :
  plainSegment s = true -> normStep a acc s = s :: acc.
Proof.
  unfold plainSegment, normStep.
  intros [[[H1 H2]%andb_prop H3]%andb_prop _]%andb_prop.
  apply negb_true_iff in H1, H2, H3. now rewrite H1, H2, H3.
Qed.

Lemma fold_normStep_plain a xs acc :
  forallb plainSegment xs = true ->
  fold_left (normStep a) xs acc = (rev xs ++ acc)%list.
Proof.
  revert acc. induction xs as [|x xs IH]; intros acc H; [reflexivity|].
  simpl in H. apply andb_prop in H as [Hx Hxs]. simpl.
  rewrite (normStep_plain _ _ _ Hx), (IH _ Hxs), <- app_assoc. reflexivity.
Qed.

Lemma fold_normStep_ups a ys acc :
  forallb plainSegment ys = true ->
  fold_left (normStep a) (repeat ".." (List.length ys)) (ys ++ acc)%list = acc.
Proof.
  induction ys as [|y ys IH]; intros H; [reflexivity|].
  simpl in H. apply andb_prop in H as [Hy Hys]. simpl.
  unfold normStep at 2; simpl.
  unfold plainSegment in Hy.
  apply andb_prop in Hy as [[_ Hy]%andb_prop _]. apply negb_true_iff in Hy.
  rewrite Hy. now apply IH.
Qed.

Lemma joinBy_nonempty x xs : x <> "" -> joinBy "/" (x :: xs) <> "".
Proof.
  intros Hx. destruct xs; simpl; [exact Hx|].
  intros [E _]%append_eq_nil. contradiction.
Qed.

Lemma joinBy_last_suffix init l : exists a, "/" ++ joinBy "/" (init ++ [l]) = a ++ l.
Proof.
  destruct init as [|x init].
  - now exists "/".
  - exists ("/" ++ joinBy "/" (x :: init) ++ "/").
    rewrite joinBy_app_last by discriminate. now rewrite !append_assoc.
Qed.

Lemma slash_app s : "/" ++ s = String sep s.
Proof. reflexivity. Qed.

Lemma endsWithSep_abs init l :
  noSep l = true -> l <> "" ->
  endsWithSep (String sep (joinBy "/" (init ++ [l]))) = false.
Proof.
  intros Hl Hne. rewrite <- slash_app.
  destruct (joinBy_last_suffix init l) as (a & ->).
  apply endsWithSep_app; [assumption | now apply negb_true_iff].
Qed.

(** [normalize] on an absolute path given by its segments. *)
Lemma normalize_abs init l kept :
  forallb noSep init = true -> noSep l = true -> l <> "" ->
  normSegs false (init ++ [l]) = kept ->
  joinBy "/" kept <> "" ->
  normalize ("/" ++ joinBy "/" (init ++ [l])) = "/" ++ joinBy "/" kept.
Proof.
  intros Hi Hl Hne Hk Hq. rewrite slash_app.
  unfold normalize, normalizeString.
  rewrite (endsWithSep_abs _ _ Hl Hne).
  cbn [String.eqb isAbsolute split negb]. rewrite Ascii.eqb_refl, split_joinBy.
  - unfold normSegs in *. cbn [fold_left normStep String.eqb orb].
    change (negb true) with false.
    rewrite Hk. apply String.eqb_neq in Hq. now rewrite Hq.
  - now destruct init.
  - rewrite forallb_app, Hi; simpl. now rewrite Hl.
Qed.

Lemma normSegs_eq a segs : normSegs a segs = rev (fold_left (normStep a) segs []).
Proof. reflexivity. Qed.

Lemma dropCommon_app cs x y xs ys :
  (x =? y) = false ->
  dropCommon (cs ++ x :: xs) (cs ++ y :: ys) = (x :: xs, y :: ys).
Proof.
  intros H. induction cs as [|c cs IH]; simpl; [now rewrite H|].
  now rewrite String.eqb_refl.
Qed.

Lemma relative_segs cwd from to :
  relative cwd from to =
  let (f, t) := dropCommon (resolveSegs cwd from) (resolveSegs cwd to) in
  joinBy "/" (map (fun _ => "..") f ++ t)%list.
Proof.
  unfold relative. destruct (String.eqb_spec from to) as [->|_]; [|reflexivity].
  induction (resolveSegs cwd to) as [|x xs IH]; [reflexivity|].
  simpl. now rewrite String.eqb_refl.
Qed.

Lemma resolveSegs_abs cwd segs :
  segs <> [] -> forallb plainSegment segs = true ->
  resolveSegs cwd ("/" ++ joinBy "/" segs) = segs.
Proof.
  intros Hne H. unfold resolveSegs. rewrite slash_app.
  cbn [isAbsolute split]. rewrite Ascii.eqb_refl.
  rewrite split_joinBy by (assumption || now apply forallb_plain_noSep).
  rewrite normSegs_eq. cbn [fold_left normStep String.eqb orb].
  now rewrite (fold_normStep_plain _ _ _ H), app_nil_r, rev_involutive.
Qed.

Lemma map_ups {A} (xs : list A) :
  map (fun _ => "..") xs = repeat ".." (List.length xs).
Proof. induction xs as [|x xs IH]; simpl; [reflexivity | now rewrite IH]. Qed.

Lemma dirname_abs init l :
  init <> [] -> noSep l = true -> l <> "" ->
  joinBy "/" init <> "" ->
  dirname ("/" ++ joinBy "/" (init ++ [l])) = "/" ++ joinBy "/" init.
Proof.
  intros Hi Hl Hne Hj. unfold dirname. rewrite slash_app.
  cbv iota beta. rewrite Ascii.eqb_refl.
  rewrite joinBy_app_last by assumption.
  apply negb_true_iff in Hl.
  replace (joinBy "/" init ++ "/" ++ l) with ((joinBy "/" init ++ "/") ++ l)
    by apply append_assoc.
  rewrite stripTrailingSep_app by assumption.
  rewrite append_assoc. change ("/" ++ l) with (String sep l).
  rewrite rsplit_app by assumption.
  apply String.eqb_neq in Hj. now rewrite Hj.
Qed.

Lemma truthy_nonempty s : s <> "" -> truthy s = true.
Proof.
  intros H. unfold truthy. apply negb_true_iff. now apply String.eqb_neq.
Qed.

Lemma forallb_plain_head x xs :
  forallb plainSegment (x :: xs) = true -> joinBy "/" (x :: xs) <> "".
Proof.
  simpl. intros [Hx _]%andb_prop.
  apply joinBy_nonempty. now apply plainSegment_nonempty.
Qed.

Lemma normSegs_after_plain a pre xs :
  forallb plainSegment pre = true ->
  normSegs a (pre ++ xs) = rev (fold_left (normStep a) xs (rev pre)).
Proof.
  intros H. rewrite normSegs_eq, fold_left_app.
  now rewrite (fold_normStep_plain _ _ _ H), app_nil_r.
Qed.

(** [normalize] of a path below the working directory [absPath cs]. *)
Lemma normalize_under_cwd cs init l kept :
  forallb plainSegment cs = true ->
  forallb noSep init = true -> noSep l = true -> l <> "" ->
  rev (fold_left (normStep false) (init ++ [l]) (rev cs)) = kept ->
  joinBy "/" kept <> "" ->
  normalize (absPath cs ++ "/" ++ joinBy "/" (init ++ [l])) = "/" ++ joinBy "/" kept.
Proof.
  intros Hcs Hi Hl Hne Hk Hq. unfold absPath.
  destruct cs as [|c cs].
  - change (("/" ++ joinBy "/" []) ++ "/" ++ joinBy "/" (init ++ [l]))
      with ("/" ++ "" ++ "/" ++ joinBy "/" (init ++ [l])).
    replace ("" ++ "/" ++ joinBy "/" (init ++ [l]))
      with (joinBy "/" (("" :: init) ++ [l]))
      by (simpl; now destruct (init ++ [l])%list eqn:E; [destruct init|]).
    apply normalize_abs; trivial; try (rewrite normSegs_eq; exact Hk).
  - rewrite append_assoc, <- joinBy_app by (discriminate || now destruct init).
    rewrite app_assoc.
    apply normalize_abs; trivial.
    + rewrite forallb_app, Hi, (forallb_plain_noSep _ Hcs). reflexivity.
    + rewrite <- app_assoc, (normSegs_after_plain _ _ _ Hcs). exact Hk.
Qed.

(** [resolve] of a relative path from the directory [absPath cs]. *)
Lemma resolve_under_cwd cs init l :
  forallb plainSegment cs = true ->
  forallb noSep init = true -> noSep l = true ->
  isAbsolute (joinBy "/" (init ++ [l])) = false ->
  resolve (absPath cs) (joinBy "/" (init ++ [l]))
  = absPath (rev (fold_left (normStep false) (init ++ [l]) (rev cs))).
Proof.
  intros Hcs Hi Hl Habs. unfold resolve, resolveSegs, absPath. rewrite Habs.
  f_equal. f_equal.
  assert (Hx : forallb noSep (init ++ [l]) = true)
    by (rewrite forallb_app, Hi; simpl; now rewrite Hl).
  destruct cs as [|c cs].
  - change (("/" ++ joinBy "/" []) ++ "/" ++ joinBy "/" (init ++ [l]))
      with (String sep (String sep (joinBy "/" (init ++ [l])))).
    cbn [split]. rewrite Ascii.eqb_refl, split_joinBy by (trivial; now destruct init).
    reflexivity.
  - rewrite append_assoc, <- joinBy_app by (discriminate || now destruct init).
    rewrite slash_app. cbn [split]. rewrite Ascii.eqb_refl, split_joinBy.
    + rewrite normSegs_eq. cbn [fold_left].
      change (normStep false [] "") with (@nil string).
      now rewrite <- normSegs_eq, (normSegs_after_plain _ _ _ Hcs).
    + discriminate.
    + now rewrite forallb_app, (forallb_plain_noSep _ Hcs), Hx.
Qed.

Lemma join_two a b : a <> "" -> b <> "" -> join [a; b] = normalize (a ++ "/" ++ b).
Proof.
  intros Ha Hb. unfold join; simpl.
  now rewrite (truthy_nonempty _ Ha), (truthy_nonempty _ Hb).
Qed.

Lemma join_three a b c :
  a <> "" -> b <> "" -> c <> "" ->
  join [a; b; c] = normalize (a ++ "/" ++ b ++ "/" ++ c).
Proof.
  intros Ha Hb Hc. unfold join; simpl.
  now rewrite (truthy_nonempty _ Ha), (truthy_nonempty _ Hb), (truthy_nonempty _ Hc).
Qed.

Lemma absPath_nonempty segs : absPath segs <> "".
Proof. discriminate. Qed.

Lemma forallb_rev {A} (P : A -> bool) (l : list A) :
  forallb P l = true -> forallb P (rev l) = true.
Proof.
  rewrite !forallb_forall. intros H x Hx. apply H. now apply in_rev.
Qed.

Section Conventional.
Variables (cs ds : list string) (n e : string).
Hypothesis Hcs : forallb plainSegment cs = true.
Hypothesis Hds : forallb plainSegment ds = true.
Hypothesis Hn : plainSegment n = true.
Hypothesis He : plainExt e = true.

Lemma n_nonempty : n <> "".
Proof. now apply plainSegment_nonempty. Qed.

Lemma baseName_noSep : hasChar sep (entryBase n e) = false.
Proof.
  unfold entryBase. rewrite !hasChar_app.
  apply plainSegment_noSep in Hn. unfold noSep in Hn.
  apply negb_true_iff in Hn. rewrite Hn.
  unfold plainExt in He. apply andb_prop in He as [_ H].
  apply negb_true_iff in H. now rewrite H.
Qed.

Lemma baseName_plain : plainSegment (entryBase n e) = true.
Proof.
  unfold plainSegment. rewrite baseName_noSep.
  pose proof n_nonempty as Hne.
  unfold plainSegment in Hn.
  apply andb_prop in Hn as [[[_ H1]%andb_prop _]%andb_prop _].
  apply negb_true_iff, String.eqb_neq in H1.
  unfold entryBase. destruct n as [|c [|c' r]]; try contradiction.
  - simpl. destruct (Ascii.eqb_spec c "."%char) as [->|]; [contradiction|].
    reflexivity.
  - simpl. destruct (Ascii.eqb c "."%char); [|reflexivity].
    destruct (Ascii.eqb c' "."%char); [|reflexivity].
    now destruct r.
Qed.

Lemma dts_plain : plainSegment (n ++ ".d.ts") = true.
Proof.
  unfold plainSegment. rewrite hasChar_app.
  pose proof n_nonempty as Hne.
  apply plainSegment_noSep in Hn. unfold noSep in Hn.
  apply negb_true_iff in Hn. rewrite Hn.
  destruct n as [|c [|c' r]]; try contradiction.
  - simpl. now destruct (Ascii.eqb c "."%char).
  - simpl. destruct (Ascii.eqb c "."%char); [|reflexivity].
    destruct (Ascii.eqb c' "."%char); [|reflexivity].
    now destruct r.
Qed.

Lemma parse_srcEntry :
  parse (srcEntry ds n e) =
  {| root := ""; dir := joinBy "/" ("." :: "src" :: ds);
     base := n ++ "." ++ e; ext := "." ++ e; name := n |}.
Proof.
  unfold srcEntry. fold (entryBase n e).
  change ("." :: "src" :: ds ++ [(entryBase n e)])%list with (("." :: "src" :: ds) ++ [(entryBase n e)])%list.
  rewrite joinBy_app_last by discriminate.
  set (d := joinBy "/" ("." :: "src" :: ds)).
  assert (Hd : exists r, d = String "."%char r) by (now exists ("/" ++ joinBy "/" ("src" :: ds))).
  destruct Hd as (r & Hd).
  unfold parse.
  assert (E : (d ++ "/" ++ (entryBase n e) =? "") = false) by (now rewrite Hd).
  assert (A : isAbsolute (d ++ "/" ++ (entryBase n e)) = false) by (now rewrite Hd).
  rewrite E, A.
  replace (d ++ "/" ++ (entryBase n e)) with ((d ++ "/") ++ (entryBase n e)) by apply append_assoc.
  rewrite stripTrailingSep_app;
    [|apply plainSegment_nonempty, baseName_plain | apply baseName_noSep].
  rewrite append_assoc. change ("/" ++ (entryBase n e)) with (String sep (entryBase n e)).
  rewrite (rsplit_app _ _ _ baseName_noSep).
  unfold splitExt, entryBase. change ("." ++ e) with (String "."%char e).
  unfold plainExt in He. apply andb_prop in He as [H _].
  apply negb_true_iff in H. rewrite (rsplit_app _ _ _ H).
  unfold plainSegment in Hn.
  apply andb_prop in Hn as [[[H0 H1]%andb_prop _]%andb_prop _].
  apply negb_true_iff in H0, H1. rewrite H0, H1. reflexivity.
Qed.

Lemma replace_src_dist :
  JsString.replace "./src" "dist" (joinBy "/" ("." :: "src" :: ds))
  = joinBy "/" ("dist" :: ds).
Proof. now destruct ds. Qed.

Lemma pathName_conventional :
  pathName (mapperFile (absPath cs) (srcEntry ds n e))
  = absPath (cs ++ "dist" :: ds ++ [(n ++ ".d.ts")%string]).
Proof.
  unfold mapperFile. cbv zeta. cbn [pathName]. rewrite parse_srcEntry.
  cbn [dir name]. rewrite replace_src_dist.
  pose proof dts_plain as Hp.
  rewrite join_three;
    [| apply absPath_nonempty
     | apply joinBy_nonempty; discriminate
     | now apply plainSegment_nonempty ].
  rewrite <- joinBy_app_last by discriminate.
  apply normalize_under_cwd; trivial.
  - simpl. now apply forallb_plain_noSep.
  - now apply plainSegment_noSep.
  - now apply plainSegment_nonempty.
  - rewrite fold_normStep_plain.
    + now rewrite rev_app_distr, !rev_involutive.
    + simpl. now rewrite forallb_app, Hds; simpl; rewrite Hp.
  - destruct cs; simpl in *; [|apply andb_prop in Hcs as [Hc _]].
    + apply joinBy_nonempty. discriminate.
    + apply joinBy_nonempty. now apply plainSegment_nonempty.
Qed.

Lemma cwd_joinBy_nonempty x xs : x <> "" -> joinBy "/" (cs ++ x :: xs) <> "".
Proof.
  intros Hx. destruct cs as [|c cs']; simpl app.
  - now apply joinBy_nonempty.
  - simpl in Hcs. apply andb_prop in Hcs as [Hc _].
    apply joinBy_nonempty. now apply plainSegment_nonempty.
Qed.

Lemma srcName_conventional :
  srcName (mapperFile (absPath cs) (srcEntry ds n e))
  = absPath (cs ++ "src" :: ds ++ [(n ++ "." ++ e)%string]).
Proof.
  unfold mapperFile. cbv zeta. cbn [srcName].
  pose proof baseName_plain as Hp. pose proof baseName_noSep as Hs.
  rewrite join_two; [| apply absPath_nonempty | apply joinBy_nonempty; discriminate].
  unfold srcEntry. fold (entryBase n e).
  change ("." :: "src" :: ds ++ [(entryBase n e)])%list with (("." :: "src" :: ds) ++ [(entryBase n e)])%list.
  apply normalize_under_cwd; trivial.
  - simpl. now apply forallb_plain_noSep.
  - unfold noSep. now rewrite Hs.
  - now apply plainSegment_nonempty.
  - cbn [app fold_left]. change (normStep false (rev cs) ".") with (rev cs).
    change (normStep false (rev cs) "src") with ("src" :: rev cs).
    rewrite fold_normStep_plain.
    + rewrite rev_app_distr, rev_involutive; simpl.
      now rewrite rev_involutive, <- app_assoc.
    + now rewrite forallb_app, Hds; simpl; rewrite Hp.
  - apply cwd_joinBy_nonempty. discriminate.
Qed.

Lemma plain_under (x : string) :
  plainSegment x = true -> forallb plainSegment (cs ++ x :: ds) = true.
Proof. intros Hx. rewrite forallb_app, Hcs; simpl. now rewrite Hx, Hds. Qed.

Lemma rel_conventional :
  rel (mapperFile (absPath cs) (srcEntry ds n e))
  = joinBy "/" (repeat ".." (S (List.length ds)) ++ "src" :: ds).
Proof.
  unfold mapperFile. cbv zeta. cbn [rel].
  fold (mapperFile (absPath cs) (srcEntry ds n e)).
  rewrite joinBy_split.
  change (join [absPath cs; JsString.replace "./src" "dist" (dir (parse (srcEntry ds n e)));
                 name (parse (srcEntry ds n e)) ++ ".d.ts"])
    with (pathName (mapperFile (absPath cs) (srcEntry ds n e))).
  change (join [absPath cs; srcEntry ds n e])
    with (srcName (mapperFile (absPath cs) (srcEntry ds n e))).
  rewrite pathName_conventional, srcName_conventional. unfold absPath at 2 3.
  change (cs ++ "dist" :: ds ++ [(n ++ ".d.ts")%string])%list
    with (cs ++ ("dist" :: ds) ++ [(n ++ ".d.ts")%string])%list.
  change (cs ++ "src" :: ds ++ [(n ++ "." ++ e)%string])%list
    with (cs ++ ("src" :: ds) ++ [(n ++ "." ++ e)%string])%list.
  rewrite !app_assoc.
  pose proof dts_plain as Hp. pose proof baseName_plain as Hb.
  rewrite !dirname_abs;
    try (now destruct cs);
    try (now apply plainSegment_noSep);
    try (now apply plainSegment_nonempty);
    try (apply cwd_joinBy_nonempty; discriminate).
  rewrite relative_segs.
  rewrite !resolveSegs_abs;
    try (now destruct cs); try (now apply plain_under).
  rewrite dropCommon_app by reflexivity.
  now rewrite map_ups.
Qed.

Lemma reference_conventional :
  reference (mapperFile (absPath cs) (srcEntry ds n e))
  = joinBy "/" (repeat ".." (S (List.length ds)) ++ "src" :: ds ++ [n]).
Proof.
  change (reference (mapperFile (absPath cs) (srcEntry ds n e)))
    with (rel (mapperFile (absPath cs) (srcEntry ds n e))
          ++ "/" ++ name (parse (srcEntry ds n e))).
  rewrite rel_conventional, parse_srcEntry. cbn [name].
  rewrite <- joinBy_app_last by discriminate.
  now rewrite <- app_assoc.
Qed.

Lemma forallb_ups k : forallb noSep (repeat ".." k) = true.
Proof. induction k; simpl; auto. Qed.

Lemma dirname_pathName :
  dirname (pathName (mapperFile (absPath cs) (srcEntry ds n e)))
  = absPath (cs ++ "dist" :: ds).
Proof.
  rewrite pathName_conventional. unfold absPath.
  change (cs ++ "dist" :: ds ++ [(n ++ ".d.ts")%string])%list
    with (cs ++ ("dist" :: ds) ++ [(n ++ ".d.ts")%string])%list.
  rewrite app_assoc. pose proof dts_plain as Hp.
  apply dirname_abs.
  - now destruct cs.
  - now apply plainSegment_noSep.
  - now apply plainSegment_nonempty.
  - apply cwd_joinBy_nonempty. discriminate.
Qed.

(** The reference, resolved from the directory of the mapper file, is the
    entry without its extension. *)
Lemma reference_resolves :
  resolve (dirname (pathName (mapperFile (absPath cs) (srcEntry ds n e))))
    (reference (mapperFile (absPath cs) (srcEntry ds n e)))
  = absPath (cs ++ "src" :: ds ++ [n]).
Proof.
  rewrite dirname_pathName, reference_conventional.
  change (repeat ".." (S (List.length ds)) ++ "src" :: ds ++ [n])%list
    with (repeat ".." (S (List.length ds)) ++ ("src" :: ds) ++ [n])%list.
  rewrite app_assoc.
  rewrite resolve_under_cwd.
  - f_equal.
    rewrite <- app_assoc, fold_left_app, rev_app_distr.
    replace (S (List.length ds)) with (List.length (rev ("dist" :: ds)))
      by (rewrite length_rev; reflexivity).
    rewrite fold_normStep_ups.
    + rewrite fold_normStep_plain.
      * now rewrite rev_app_distr, !rev_involutive.
      * simpl. now rewrite forallb_app, Hds; simpl; rewrite Hn.
    + apply forallb_rev. simpl. exact Hds.
  - now apply plain_under.
  - rewrite forallb_app, forallb_ups. simpl. now apply forallb_plain_noSep.
  - now apply plainSegment_noSep.
  - now destruct ds.
Qed.

Lemma reference_resolves_to_source :
  resolve (dirname (pathName (mapperFile (absPath cs) (srcEntry ds n e))))
    (reference (mapperFile (absPath cs) (srcEntry ds n e))) ++ "." ++ e
  = srcName (mapperFile (absPath cs) (srcEntry ds n e)).
Proof.
  rewrite reference_resolves, srcName_conventional. unfold absPath.
  change (cs ++ "src" :: ds ++ [n])%list with (cs ++ ("src" :: ds) ++ [n])%list.
  change (cs ++ "src" :: ds ++ [(n ++ "." ++ e)%string])%list
    with (cs ++ ("src" :: ds) ++ [(n ++ "." ++ e)%string])%list.
  rewrite !app_assoc, !joinBy_app_last by (now destruct cs).
  now rewrite !append_assoc.
Qed.

End Conventional.

End PathFacts.

Import PathFacts.

(** C4 (as stated, refuted). For the entry [src/index.ts], with a
    [tsconfig.json] and without [--optimized], the run succeeds and writes
    one file, [/repo/pkg/src/index.d.ts]: it is not under the output
    directory [/repo/pkg/dist], and its reference [/index] resolves to
    [/index], not to the entry [/repo/pkg/src/index.ts]. *)
Lemma bare_src_entry_is_not_mirrored :
  outcome (run bareEntryWorld "/repo/pkg" []) = inr tt
  /\ hasFlag [] "optimized" = false
  /\ fs_pathExists bareEntryWorld (Path.join ["/repo/pkg"; "tsconfig.json"]) = true
  /\ written (trace (run bareEntryWorld "/repo/pkg" []))
     = [("/repo/pkg/src/index.d.ts",
         "// dev-mode" ++ JsString.LF ++ "export * from '/index';")]
  /\ planOutDir bareEntryWorld = "/repo/pkg/dist"
  /\ JsString.startsWith "/repo/pkg/src/index.d.ts" "/repo/pkg/dist/" = false
  /\ reference (mapperFile "/repo/pkg" "src/index.ts") = "/index"
  /\ Path.resolve (Path.dirname "/repo/pkg/src/index.d.ts") "/index" = "/index"
  /\ srcName (mapperFile "/repo/pkg" "src/index.ts") = "/repo/pkg/src/index.ts".
Proof. repeat split; vm_compute; reflexivity. Qed.

Lemma outDir_under_cwd cs :
  forallb plainSegment cs = true ->
  Path.join [absPath cs; "dist"] = absPath (cs ++ ["dist"]).
Proof.
  intros Hcs. rewrite join_two; [| apply absPath_nonempty | discriminate].
  apply (normalize_under_cwd cs [] "dist"); trivial; try discriminate.
  - simpl. change (Path.normStep false (rev cs) "dist") with ("dist" :: rev cs).
    simpl. now rewrite rev_involutive.
  - destruct cs as [|c cs]; simpl in *; [discriminate|].
    apply andb_prop in Hcs as [Hc _].
    apply joinBy_nonempty. now apply plainSegment_nonempty.
Qed.

Lemma run_written_ok w cwd flags pkg b :
  fs_readJson w (Path.join [cwd; "package.json"]) = inr pkg ->
  Manifest.bundler pkg = Some b ->
  outcome (run w cwd flags) = inr tt ->
  written (trace (run w cwd flags))
  = map (mapperWrite w) (mappers (planTasks w cwd flags pkg b)).
Proof.
  intros Hread Hb Hok.
  rewrite (run_outcome _ _ _ _ _ Hread Hb) in Hok.
  rewrite (run_written _ _ _ _ _ Hread Hb).
  destruct (outcome (setupPhase w cwd flags b)); [discriminate|].
  destruct (outcome (Promise_all w _)) eqn:Hpa; [discriminate|].
  now apply (Promise_all_fulfilled _ _ _ Hpa).
Qed.

(** C4 (amended). Without [--optimized] and with a [tsconfig.json] at the
    package root, a run that is fulfilled has written one mapper file per
    configured entry, in the order of the entries.  When the working
    directory is the absolute path of segments [cs], the output directory
    is [cs/dist], and for an entry of the form [./src/<ds>/<n>.<e>] (plain
    directory names [ds], a plain name [n], an extension [e] without dot)
    the file is [cs/dist/<ds>/<n>.d.ts]; its content is the comment line
    and one [export * from] statement, whose reference climbs out of
    [dist/<ds>] and descends into [src/<ds>/<n>]; resolved from the
    directory of the file, the reference is the entry's source path
    without its extension. *)
Theorem dev_mode_mapper_files w cwd flags pkg b cs :
  fs_readJson w (Path.join [cwd; "package.json"]) = inr pkg ->
  Manifest.bundler pkg = Some b ->
  hasFlag flags "optimized" = false ->
  fs_pathExists w (Path.join [process_cwd w; "tsconfig.json"]) = true ->
  outcome (run w cwd flags) = inr tt ->
  process_cwd w = absPath cs ->
  forallb plainSegment cs = true ->
  written (trace (run w cwd flags)) = map (mapperWrite w) (planEntries b)
  /\ planOutDir w = absPath (cs ++ ["dist"])
  /\ forall ds n e,
      forallb plainSegment ds = true -> plainSegment n = true -> plainExt e = true ->
      let m := mapperFile (process_cwd w) (srcEntry ds n e) in
      pathName m = absPath (cs ++ "dist" :: ds ++ [(n ++ ".d.ts")%string])
      /\ content m
         = "// dev-mode" ++ JsString.LF ++ "export * from '" ++ reference m ++ "';"
      /\ reference m
         = JsString.joinBy "/" (repeat ".." (S (List.length ds)) ++ "src" :: ds ++ [n])
      /\ srcName m = absPath (cs ++ "src" :: ds ++ [(n ++ "." ++ e)%string])
      /\ Path.resolve (Path.dirname (pathName m)) (reference m) ++ "." ++ e
         = srcName m.
Proof.
  intros Hread Hb Hopt Hts Hok Hcwd Hcs.
  split; [|split].
  - rewrite (run_written_ok _ _ _ _ _ Hread Hb Hok), planTasks_mappers.
    unfold planTsConfigPath, planOptimized. now rewrite Hts, Hopt.
  - unfold planOutDir. rewrite Hcwd. now apply outDir_under_cwd.
  - intros ds n e Hds Hn He. rewrite Hcwd. cbv zeta.
    split; [now apply pathName_conventional|].
    split; [reflexivity|].
    split; [now apply reference_conventional|].
    split; [now apply srcName_conventional|].
    now apply reference_resolves_to_source.
Qed.

Lemma dev_mode_mapper_files_witness :
  written (trace (run specWorld "/repo/pkg" []))
  = map (mapperWrite specWorld) ["./src/index.ts"; "./src/presets/foo-preset.ts"]
  /\ pathName (mapperFile "/repo/pkg" "./src/presets/foo-preset.ts")
     = "/repo/pkg/dist/presets/foo-preset.d.ts"
  /\ reference (mapperFile "/repo/pkg" "./src/presets/foo-preset.ts")
     = "../../src/presets/foo-preset"
  /\ Path.resolve
       (Path.dirname (pathName (mapperFile "/repo/pkg" "./src/presets/foo-preset.ts")))
       (reference (mapperFile "/repo/pkg" "./src/presets/foo-preset.ts")) ++ ".ts"
     = "/repo/pkg/src/presets/foo-preset.ts".
Proof.
  destruct (dev_mode_mapper_files specWorld "/repo/pkg" []
              (examplePackage (Some [esm; cjs])) (exampleBundler (Some [esm; cjs]))
              ["repo"; "pkg"] eq_refl eq_refl eq_refl eq_refl eq_refl eq_refl eq_refl)
    as (Hw & _ & Hall).
  split; [exact Hw|].
  destruct (Hall ["presets"] "foo-preset" "ts" eq_refl eq_refl eq_refl)
    as (Hp & _ & Hr & Hs & Hres).
  split; [exact Hp|]. split; [exact Hr|].
  rewrite Hs in Hres. exact Hres.
Defined.

(** * Further properties of the script *)

(** ** Flags *)

Lemma prefix_iff_append (a s : string) :
  String.prefix a s = true <-> exists r, s = a ++ r.
Proof.
  revert s. induction a as [|x a IH]; intros s; simpl.
  - destruct s; split; eauto.
  - destruct s as [|y s]; simpl.
    + split; [discriminate | intros (r & H); discriminate].
    + destruct (Ascii.ascii_dec x y) as [->|Hne].
      * rewrite IH. split; intros (r & H); exists r; congruence.
      * split; [discriminate | intros (r & H); congruence].
Qed.

Lemma hasFlag_existsb flags name :
  hasFlag flags name
  = existsb (fun s => JsString.startsWith s ("--" ++ name)) flags.
Proof.
  unfold hasFlag. induction flags as [|f flags IH]; [reflexivity|].
  cbn [find existsb].
  destruct (JsString.startsWith f ("--" ++ name)) eqn:E; cbn [orb]; [|exact IH].
  unfold JsString.startsWith in E. apply prefix_iff_append in E as (r & ->).
  reflexivity.
Qed.

Lemma hasFlag_spec flags name :
  hasFlag flags name = true
  <-> exists rest, In ("--" ++ name ++ rest) flags.
Proof.
  rewrite hasFlag_existsb, existsb_exists. unfold JsString.startsWith. split.
  - intros (f & Hin & (r & ->)%prefix_iff_append).
    exists r. now rewrite <- PathFacts.append_assoc.
  - intros (r & Hin). eexists; split; [exact Hin|].
    apply prefix_iff_append. exists r. now rewrite <- PathFacts.append_assoc.
Qed.

(** X1. A flag is set exactly when some argument is [--] and the flag's
    name, followed by anything. *)
Theorem hasFlag_iff_some_argument_extends flags name :
  hasFlag flags name = true
  <-> exists rest, In ("--" ++ name ++ rest) flags.
Proof. apply hasFlag_spec. Qed.

(** X2. Flags are matched by prefix: arguments that set a flag also set
    every flag whose name is a prefix of that flag's name. *)
Theorem hasFlag_prefix_closed flags name more :
  hasFlag flags (name ++ more) = true -> hasFlag flags name = true.
Proof.
  rewrite !hasFlag_spec. intros (r & H).
  exists (more ++ r). now rewrite PathFacts.append_assoc in H.
Qed.

Lemma hasFlag_prefix_closed_witness :
  hasFlag ["--watching"] "watch" = true.
Proof.
  apply (hasFlag_prefix_closed ["--watching"] "watch" "ing"). reflexivity.
Defined.

(** ** The builds *)

(** X3. The builds are dispatched in a fixed order, the ESM one before the
    CommonJS one, each at most once: the order of the manifest's [formats]
    and its repetitions play no role. *)
Theorem builds_in_fixed_order w cwd flags pkg b :
  setupSucceeds w cwd flags pkg b ->
  map Tsup.format (builds (dispatched (trace (run w cwd flags))))
  = map (fun f => [f])
      (filter (fun f => existsb (Formats_eqb f) (planFormats b)) [esm; cjs]).
Proof.
  intros Hs. rewrite (run_dispatched _ _ _ _ _ Hs), planTasks_builds. simpl.
  destruct (existsb (Formats_eqb esm) _), (existsb (Formats_eqb cjs) _);
    reflexivity.
Qed.

Lemma builds_in_fixed_order_witness :
  map Tsup.format
    (builds (dispatched (trace (run (exampleWorld (Some [cjs; esm; cjs]) [] None)
                                  "/repo/pkg" []))))
  = [[esm]; [cjs]].
Proof.
  apply (builds_in_fixed_order (exampleWorld (Some [cjs; esm; cjs]) [] None)
           "/repo/pkg" [] (examplePackage (Some [cjs; esm; cjs]))
           (exampleBundler (Some [cjs; esm; cjs]))).
  apply exampleWorld_setup.
Defined.

(** X4. A dispatched build carries the declaration section only in an
    optimized run of a package with a [tsconfig.json], and only when its
    format is the first of the format list. *)
Theorem dts_only_when_optimized w cwd flags pkg b o :
  fs_readJson w (Path.join [cwd; "package.json"]) = inr pkg ->
  Manifest.bundler pkg = Some b ->
  In (EvDispatch (BuildTask o)) (trace (run w cwd flags)) ->
  hasDts o = true ->
  hasFlag flags "optimized" = true
  /\ fs_pathExists w (Path.join [process_cwd w; "tsconfig.json"]) = true
  /\ exists f0, hd_error (planFormats b) = Some f0 /\ Tsup.format o = [f0].
Proof.
  intros Hread Hb Hin.
  apply (run_dispatch_inv _ _ _ _ _ _ Hread Hb), planTasks_build in Hin.
  unfold hasDts, planEsm, planCjs, esmOptions, cjsOptions, planDts,
    planOptimized, planTsConfigPath in *.
  destruct Hin as [[-> _]|[-> _]]; simpl;
    destruct (hasFlag flags "optimized"); simpl; try discriminate;
    destruct (hd_error (planFormats b)) as [[]|]; simpl; try discriminate;
    destruct (fs_pathExists w _); simpl; try discriminate;
    intros _; repeat split; eexists; split; reflexivity.
Qed.

Lemma dts_only_when_optimized_witness :
  hasFlag ["--optimized"] "optimized" = true
  /\ fs_pathExists optimizedWorld (Path.join [process_cwd optimizedWorld; "tsconfig.json"])
     = true
  /\ exists f0,
      hd_error (planFormats (exampleBundler (Some [esm; cjs]))) = Some f0
      /\ Tsup.format (planEsm optimizedWorld "/repo/pkg" ["--optimized"]
                        (examplePackage (Some [esm; cjs]))
                        (exampleBundler (Some [esm; cjs]))) = [f0].
Proof.
  apply (dts_only_when_optimized optimizedWorld "/repo/pkg" ["--optimized"]
           (examplePackage (Some [esm; cjs])) (exampleBundler (Some [esm; cjs]))).
  - reflexivity.
  - reflexivity.
  - simpl. find_in_list.
  - reflexivity.
Defined.

(** X5. The ESM build is declared to tsup for the browser, while the
    esbuild options it installs take the manifest's platform ([browser]
    when absent) and the [module] condition; the CommonJS build is for
    [node] on both levels, with the conditions [node], [default],
    [module]. Both hold whatever configuration the callback receives. *)
Theorem platform_of_each_build w cwd flags pkg b o c :
  fs_readJson w (Path.join [cwd; "package.json"]) = inr pkg ->
  Manifest.bundler pkg = Some b ->
  In (EvDispatch (BuildTask o)) (trace (run w cwd flags)) ->
  (Tsup.format o = [esm] ->
   Tsup.platform o = browser
   /\ ESBuild.platform (Tsup.esbuildOptions o c)
      = default browser (Manifest.platform b)
   /\ ESBuild.conditions (Tsup.esbuildOptions o c) = ["module"])
  /\ (Tsup.format o = [cjs] ->
      Tsup.platform o = node
      /\ ESBuild.platform (Tsup.esbuildOptions o c) = node
      /\ ESBuild.conditions (Tsup.esbuildOptions o c) = ["node"; "default"; "module"]).
Proof.
  intros Hread Hb Hin.
  apply (run_dispatch_inv _ _ _ _ _ _ Hread Hb), planTasks_build in Hin.
  destruct Hin as [[-> _]|[-> _]]; split; intros H; try discriminate H;
    repeat split.
Qed.

Lemma platform_of_each_build_witness :
  Tsup.platform (planEsm specWorld "/repo/pkg" [] (examplePackage (Some [esm; cjs]))
                   (exampleBundler (Some [esm; cjs]))) = browser
  /\ ESBuild.platform
       (Tsup.esbuildOptions
          (planEsm specWorld "/repo/pkg" [] (examplePackage (Some [esm; cjs]))
             (exampleBundler (Some [esm; cjs]))) anESBuildConfig) = node.
Proof.
  destruct (platform_of_each_build specWorld "/repo/pkg" []
              (examplePackage (Some [esm; cjs])) (exampleBundler (Some [esm; cjs]))
              (planEsm specWorld "/repo/pkg" [] (examplePackage (Some [esm; cjs]))
                 (exampleBundler (Some [esm; cjs])))
              anESBuildConfig eq_refl eq_refl
              ltac:(simpl; find_in_list)) as [He _].
  destruct (He eq_refl) as (H1 & H2 & _). split; [exact H1 | exact H2].
Defined.

(** X6. The package's own name, every extra external of the manifest, every
    dependency and every peer dependency is in the [external] list of every
    dispatched build. *)
Theorem declared_modules_are_external w cwd flags pkg b o x :
  fs_readJson w (Path.join [cwd; "package.json"]) = inr pkg ->
  Manifest.bundler pkg = Some b ->
  In (EvDispatch (BuildTask o)) (trace (run w cwd flags)) ->
  x = Manifest.name pkg
  \/ In x (default [] (Manifest.externals b))
  \/ In x (keys (Manifest.dependencies pkg))
  \/ In x (keys (Manifest.peerDependencies pkg)) ->
  In x (Tsup.external o).
Proof.
  intros Hread Hb Hin Hx.
  assert (Hp : In x (planExternals pkg b)).
  { unfold planExternals. simpl. rewrite !in_app_iff.
    destruct Hx as [->|Hx]; [now left | now right]. }
  apply (run_dispatch_inv _ _ _ _ _ _ Hread Hb), planTasks_build in Hin.
  destruct Hin as [[-> _]|[-> _]].
  - now rewrite esm_external_is_externals.
  - exact Hp.
Qed.

Lemma declared_modules_are_external_witness :
  In "react"
     (Tsup.external (planCjs specWorld "/repo/pkg" [] (examplePackage (Some [esm; cjs]))
                       (exampleBundler (Some [esm; cjs])))).
Proof.
  apply (declared_modules_are_external specWorld "/repo/pkg" []
           (examplePackage (Some [esm; cjs])) (exampleBundler (Some [esm; cjs]))).
  - reflexivity.
  - reflexivity.
  - simpl. find_in_list.
  - right. right. right. simpl. now left.
Defined.

(** ** The output directory *)

Lemma setupPhase_reset_done w cwd flags b u :
  hasFlag flags "reset" = true ->
  outcome (setupPhase w cwd flags b) = inr u ->
  In (EvEmptyDir (planOutDir w)) (trace (setupPhase w cwd flags b)).
Proof.
  intros Hc. unfold setupPhase. rewrite Hc.
  destruct (optTruthy (Manifest.pre b)); run_prim;
    repeat match goal with
           | |- context [match ?x with None => _ | Some _ => _ end] =>
               destruct x; simpl
           end; intros H; (discriminate || auto).
Qed.

Lemma setupPhase_emptied w cwd flags b p :
  In (EvEmptyDir p) (trace (setupPhase w cwd flags b)) ->
  hasFlag flags "reset" = true /\ p = planOutDir w.
Proof.
  unfold setupPhase.
  destruct (optTruthy (Manifest.pre b)), (hasFlag flags "reset"); run_prim;
    repeat match goal with
           | |- context [match ?x with None => _ | Some _ => _ end] =>
               destruct x; simpl
           end;
    intros H; repeat destruct H as [H|H]; try discriminate H; try contradiction;
    injection H as <-; now split.
Qed.

Lemma setupPhase_reset_fails w cwd flags b e :
  hasFlag flags "reset" = true ->
  fs_emptyDir w (planOutDir w) = Some e ->
  exists e', outcome (setupPhase w cwd flags b) = inl e'.
Proof.
  intros Hc He. unfold setupPhase, emptyDir. rewrite Hc, He.
  destruct (optTruthy (Manifest.pre b)); run_prim;
    repeat match goal with
           | |- context [match ?x with None => _ | Some _ => _ end] =>
               destruct x; simpl
           end; eauto.
Qed.

Lemma In_run_trace w cwd flags pkg b e :
  fs_readJson w (Path.join [cwd; "package.json"]) = inr pkg ->
  Manifest.bundler pkg = Some b ->
  In e (trace (run w cwd flags)) ->
  In e (trace (setupPhase w cwd flags b))
  \/ (exists t, e = EvDispatch t)
  \/ taskEvent e = true
  \/ finishEvent e = true.
Proof.
  intros Hread Hb. rewrite (run_trace _ _ _ _ _ Hread Hb), in_app_iff.
  intros [H|H]; [now left|]. right.
  destruct (outcome (setupPhase w cwd flags b)); [contradiction|].
  rewrite !in_app_iff in H. destruct H as [H|[H|H]].
  - left. apply in_map_iff in H as (t & <- & _). now exists t.
  - right. left. pose proof (Promise_all_events w (planTasks w cwd flags pkg b)) as HP.
    rewrite forallb_forall in HP. now apply HP.
  - right. right. destruct (outcome (Promise_all _ _)); [contradiction|].
    pose proof (finishPhase_events w cwd b) as HF.
    rewrite forallb_forall in HF. now apply HF.
Qed.

(** X7. With [--reset], the output directory has been emptied before any
    task is dispatched, and a failure to empty it leaves every task
    undispatched; without [--reset], no directory is ever emptied. *)
Theorem reset_empties_before_dispatch w cwd flags pkg b :
  fs_readJson w (Path.join [cwd; "package.json"]) = inr pkg ->
  Manifest.bundler pkg = Some b ->
  (hasFlag flags "reset" = true ->
   (forall l1 t l2,
       trace (run w cwd flags) = (l1 ++ EvDispatch t :: l2)%list ->
       In (EvEmptyDir (Path.join [process_cwd w; "dist"])) l1)
   /\ (forall e,
          fs_emptyDir w (Path.join [process_cwd w; "dist"]) = Some e ->
          dispatched (trace (run w cwd flags)) = []))
  /\ (hasFlag flags "reset" = false ->
      forall p, ~ In (EvEmptyDir p) (trace (run w cwd flags))).
Proof.
  intros Hread Hb.
  pose proof (run_dispatched_cases w cwd flags pkg b Hread Hb) as Hd.
  pose proof (run_trace w cwd flags pkg b Hread Hb) as HT.
  pose proof (setupPhase_events w cwd flags b) as HS.
  split.
  - intros Hr. split.
    + intros l1 t l2 E. rewrite E in HT.
      destruct (outcome (setupPhase w cwd flags b)) as [e|u] eqn:Ho.
      * exfalso. rewrite app_nil_r in HT.
        apply (forallb_not_In _ _ (EvDispatch t) HS eq_refl).
        rewrite <- HT. apply in_elt.
      * apply split_after_prefix in HT as (l1' & -> & _);
          [|now apply (forallb_not_In _ _ _ HS)].
        apply in_or_app. left. now apply (setupPhase_reset_done _ _ _ _ u).
    + intros e He. rewrite Hd.
      now destruct (setupPhase_reset_fails w cwd flags b e Hr He) as (e' & ->).
  - intros Hr p Hin.
    apply (In_run_trace _ _ _ _ _ _ Hread Hb) in Hin
      as [H|[(t & H)|[H|H]]]; try discriminate H.
    apply setupPhase_emptied in H as [H _]. congruence.
Qed.

Lemma reset_empties_before_dispatch_witness :
  In (EvEmptyDir "/repo/pkg/dist")
     (firstn 5 (trace (run (exampleWorld (Some [esm; cjs]) ["--reset"] None)
                         "/repo/pkg" ["--reset"]))).
Proof.
  destruct (reset_empties_before_dispatch
              (exampleWorld (Some [esm; cjs]) ["--reset"] None) "/repo/pkg" ["--reset"]
              (examplePackage (Some [esm; cjs])) (exampleBundler (Some [esm; cjs]))
              eq_refl eq_refl) as [Hr _].
  destruct (Hr eq_refl) as [H _].
  apply (H _ (BuildTask (planEsm (exampleWorld (Some [esm; cjs]) ["--reset"] None)
                           "/repo/pkg" ["--reset"]
                           (examplePackage (Some [esm; cjs]))
                           (exampleBundler (Some [esm; cjs]))))
           (skipn 6 (trace (run (exampleWorld (Some [esm; cjs]) ["--reset"] None)
                              "/repo/pkg" ["--reset"])))).
  reflexivity.
Defined.

(** X8. The directory that [--reset] empties is the directory every build
    writes to, and no build cleans it: what one build has written, the
    other leaves in place. *)
Theorem builds_write_where_reset_empties w cwd flags pkg b o :
  fs_readJson w (Path.join [cwd; "package.json"]) = inr pkg ->
  Manifest.bundler pkg = Some b ->
  In (EvDispatch (BuildTask o)) (trace (run w cwd flags)) ->
  Tsup.clean o = false
  /\ Tsup.outDir o = Path.join [process_cwd w; "dist"]
  /\ forall p, In (EvEmptyDir p) (trace (run w cwd flags)) -> p = Tsup.outDir o.
Proof.
  intros Hread Hb Hin.
  assert (Ho : Tsup.clean o = false /\ Tsup.outDir o = Path.join [process_cwd w; "dist"]).
  { apply (run_dispatch_inv _ _ _ _ _ _ Hread Hb), planTasks_build in Hin.
    destruct Hin as [[-> _]|[-> _]]; now split. }
  destruct Ho as [Hc Ho]. split; [exact Hc|]. split; [exact Ho|].
  intros p Hp. rewrite Ho.
  apply (In_run_trace _ _ _ _ _ _ Hread Hb) in Hp
    as [H|[(t & H)|[H|H]]]; try discriminate H.
  now apply setupPhase_emptied in H as [_ ->].
Qed.

Lemma builds_write_where_reset_empties_witness :
  Tsup.clean (planCjs specWorld "/repo/pkg" [] (examplePackage (Some [esm; cjs]))
                (exampleBundler (Some [esm; cjs]))) = false
  /\ Tsup.outDir (planCjs specWorld "/repo/pkg" [] (examplePackage (Some [esm; cjs]))
                    (exampleBundler (Some [esm; cjs]))) = "/repo/pkg/dist".
Proof.
  destruct (builds_write_where_reset_empties specWorld "/repo/pkg" []
              (examplePackage (Some [esm; cjs])) (exampleBundler (Some [esm; cjs]))
              (planCjs specWorld "/repo/pkg" [] (examplePackage (Some [esm; cjs]))
                 (exampleBundler (Some [esm; cjs])))
              eq_refl eq_refl ltac:(simpl; find_in_list)) as (H1 & H2 & _).
  split; [exact H1 | exact H2].
Defined.

(** ** Outcome of the run *)

Lemma runTask_outcome w t :
  outcome (runTask w t) = inr tt <-> taskOk w t = true.
Proof.
  destruct t as [o|file]; unfold runTask, generateDTSMapperFile, taskOk, mapperWrite;
    run_prim.
  - destruct (tsup_build w o); simpl; split; (reflexivity || discriminate).
  - destruct (fs_ensureFile w _); simpl; [split; discriminate|].
    destruct (fs_writeFile w _ _); simpl; split; (reflexivity || discriminate).
Qed.

Lemma outcome_unit (m : M unit) : (exists e, outcome m = inl e) \/ outcome m = inr tt.
Proof. destruct m as [t [e|[]]]; simpl; eauto. Qed.

Lemma Promise_all_outcome w ts :
  outcome (Promise_all w ts) = inr tt <-> forallb (taskOk w) ts = true.
Proof.
  induction ts as [|t ts IH]; simpl; [now split|].
  rewrite outcome_bind, andb_true_iff, <- IH, <- runTask_outcome.
  destruct (outcome_unit (runTask w t)) as [(e & ->)| ->].
  - split; [discriminate | intros [H _]; discriminate].
  - tauto.
Qed.

Lemma finishPhase_outcome w cwd b :
  outcome (finishPhase w cwd b) = inr tt
  <-> (optTruthy (Manifest.post b) = true ->
       utils_exec w (postCommand w b) cwd = None).
Proof.
  unfold finishPhase.
  destruct (optTruthy (Manifest.post b)), (process_env_CI w) as [v|];
    try destruct (v =? "true"); run_prim;
    try (split; [intros _ H; discriminate H | reflexivity]);
    destruct (utils_exec w _ _); simpl;
    (split; [intros H; (discriminate H || reflexivity) | intros H]);
    try reflexivity; discriminate (H eq_refl).
Qed.

(** X9. The run is fulfilled exactly when every step succeeds: the manifest
    is read and has a bundler section, the pre-hook and the reset (where
    requested) succeed, every dispatched build and every mapper write
    succeeds, and the post-hook (where configured) succeeds. *)
Theorem run_fulfilled_iff w cwd flags :
  outcome (run w cwd flags) = inr tt
  <-> exists pkg b,
      setupSucceeds w cwd flags pkg b
      /\ forallb (taskOk w) (planTasks w cwd flags pkg b) = true
      /\ (optTruthy (Manifest.post b) = true ->
          utils_exec w (postCommand w b) cwd = None).
Proof.
  split.
  - intros Hok.
    destruct (fs_readJson w (Path.join [cwd; "package.json"])) as [e|pkg] eqn:Hread;
      [now rewrite (run_read_fails _ _ _ _ Hread) in Hok|].
    destruct (Manifest.bundler pkg) as [b|] eqn:Hb;
      [|now rewrite (run_no_bundler _ _ _ _ Hread Hb) in Hok].
    rewrite (run_outcome _ _ _ _ _ Hread Hb) in Hok.
    exists pkg, b.
    destruct (outcome (setupPhase w cwd flags b)) as [e|u] eqn:Hs; [discriminate|].
    split; [now apply (setupPhase_ok_inv _ _ _ _ _ u)|].
    destruct (outcome_unit (Promise_all w (planTasks w cwd flags pkg b)))
      as [(e & Hp)|Hp]; rewrite Hp in Hok; [discriminate|].
    split; [now apply Promise_all_outcome | now apply finishPhase_outcome].
  - intros (pkg & b & Hs & Ht & Hp).
    pose proof (setupPhase_ok _ _ _ _ _ Hs) as Hok.
    destruct Hs as (Hread & Hb & _).
    rewrite (run_outcome _ _ _ _ _ Hread Hb), Hok.
    apply Promise_all_outcome in Ht. rewrite Ht.
    now apply finishPhase_outcome.
Qed.

(** X10. A dispatched task that fails makes the run fail: the post-hook is
    not started and the completion message is not printed. *)
Theorem failed_task_skips_post_hook w cwd flags pkg b t :
  fs_readJson w (Path.join [cwd; "package.json"]) = inr pkg ->
  Manifest.bundler pkg = Some b ->
  In (EvDispatch t) (trace (run w cwd flags)) ->
  taskOk w t = false ->
  (exists e, outcome (run w cwd flags) = inl e)
  /\ (forall c, ~ In (EvExecStart PostHook c) (trace (run w cwd flags)))
  /\ stdout (trace (run w cwd flags)) = [].
Proof.
  intros Hread Hb Hin Hbad.
  apply (run_dispatch_inv _ _ _ _ _ _ Hread Hb) in Hin.
  assert (Hp : exists e, outcome (Promise_all w (planTasks w cwd flags pkg b)) = inl e).
  { destruct (outcome_unit (Promise_all w (planTasks w cwd flags pkg b)))
      as [H|H]; [exact H|].
    apply Promise_all_outcome in H. rewrite forallb_forall in H.
    specialize (H t Hin). congruence. }
  destruct Hp as (e & Hp).
  pose proof (setupPhase_events w cwd flags b) as HS.
  pose proof (Promise_all_events w (planTasks w cwd flags pkg b)) as HP.
  rewrite (run_outcome _ _ _ _ _ Hread Hb), (run_trace _ _ _ _ _ Hread Hb), Hp.
  split; [|split].
  - destruct (outcome (setupPhase w cwd flags b)); eauto.
  - intros c. rewrite in_app_iff. intros [H|H].
    + exact (forallb_not_In _ _ (EvExecStart PostHook c) HS eq_refl H).
    + destruct (outcome (setupPhase w cwd flags b)); [contradiction|].
      rewrite app_nil_r, in_app_iff in H. destruct H as [H|H].
      * now apply not_In_dispatch in H.
      * exact (forallb_not_In _ _ (EvExecStart PostHook c) HP eq_refl H).
  - unfold stdout. rewrite select_app. fold stdout. rewrite stdout_setup.
    destruct (outcome (setupPhase w cwd flags b)); [reflexivity|].
    unfold stdout. rewrite !select_app. fold stdout.
    now rewrite stdout_dispatch, stdout_Promise_all.
Qed.


Lemma failed_task_skips_post_hook_witness :
  (exists e, outcome (run failingBuildWorld "/repo/pkg" []) = inl e)
  /\ stdout (trace (run failingBuildWorld "/repo/pkg" [])) = [].
Proof.
  destruct (failed_task_skips_post_hook failingBuildWorld "/repo/pkg" []
              (examplePackage None) (exampleBundler None)
              (BuildTask (planCjs failingBuildWorld "/repo/pkg" []
                            (examplePackage None) (exampleBundler None)))
              eq_refl eq_refl ltac:(simpl; find_in_list) eq_refl)
    as (H1 & _ & H3).
  split; [exact H1 | exact H3].
Defined.

Lemma stdout_finish_cases w cwd b :
  stdout (trace (finishPhase w cwd b)) = []
  \/ (stdout (trace (finishPhase w cwd b)) = ["done"]
      /\ outcome (finishPhase w cwd b) = inr tt).
Proof.
  unfold finishPhase.
  destruct (optTruthy (Manifest.post b)), (process_env_CI w) as [v|];
    try destruct (v =? "true"); run_prim;
    repeat match goal with
           | |- context [match ?x with None => _ | Some _ => _ end] =>
               destruct x; simpl
           end; auto.
Qed.

(** X11. The only line the run ever prints to the standard output is
    [done], and it prints it only when it is fulfilled: a run that fails at
    any step, the post-hook included, prints nothing. *)
Theorem done_only_when_fulfilled w cwd flags :
  stdout (trace (run w cwd flags)) = []
  \/ (stdout (trace (run w cwd flags)) = ["done"]
      /\ outcome (run w cwd flags) = inr tt).
Proof.
  destruct (fs_readJson w (Path.join [cwd; "package.json"])) as [e|pkg] eqn:Hread;
    [left; now rewrite (run_read_fails _ _ _ _ Hread)|].
  destruct (Manifest.bundler pkg) as [b|] eqn:Hb;
    [|left; now rewrite (run_no_bundler _ _ _ _ Hread Hb)].
  rewrite (run_outcome _ _ _ _ _ Hread Hb), (run_trace _ _ _ _ _ Hread Hb).
  unfold stdout. rewrite select_app. fold stdout. rewrite stdout_setup.
  destruct (outcome (setupPhase _ _ _ _)); [now left|].
  unfold stdout. rewrite !select_app. fold stdout.
  rewrite stdout_dispatch, stdout_Promise_all.
  destruct (outcome (Promise_all _ _)); [now left|].
  exact (stdout_finish_cases w cwd b).
Qed.

(** X12. A manifest without a [bundler] section: the run does nothing but
    read the manifest (no hook, no reset, no task), and the process prints
    the stack of an [Error] and exits with code 1. *)
Theorem missing_bundler_stops_at_once w pkg :
  fs_readJson w (Path.join [process_cwd w; "package.json"]) = inr pkg ->
  Manifest.bundler pkg = None ->
  exists stack,
    main w = [EvReadJson (Path.join [process_cwd w; "package.json"]);
              EvConsoleError stack; EvExit 1].
Proof.
  intros Hread Hb. unfold main.
  rewrite (run_no_bundler _ _ _ _ Hread Hb). eexists. reflexivity.
Qed.

Lemma missing_bundler_stops_at_once_witness :
  exists stack,
    main plainWorld = [EvReadJson "/repo/pkg/package.json";
                       EvConsoleError stack; EvExit 1].
Proof.
  exact (missing_bundler_stops_at_once plainWorld plainPackage eq_refl eq_refl).
Defined.

Lemma In_run_phases w cwd flags pkg b e :
  fs_readJson w (Path.join [cwd; "package.json"]) = inr pkg ->
  Manifest.bundler pkg = Some b ->
  In e (trace (run w cwd flags)) ->
  In e (trace (setupPhase w cwd flags b))
  \/ (exists t, e = EvDispatch t)
  \/ In e (trace (Promise_all w (planTasks w cwd flags pkg b)))
  \/ In e (trace (finishPhase w cwd b)).
Proof.
  intros Hread Hb. rewrite (run_trace _ _ _ _ _ Hread Hb), in_app_iff.
  intros [H|H]; [now left|]. right.
  destruct (outcome (setupPhase w cwd flags b)); [contradiction|].
  rewrite !in_app_iff in H. destruct H as [H|[H|H]].
  - left. apply in_map_iff in H as (t & <- & _). now exists t.
  - right. now left.
  - right. right. now destruct (outcome (Promise_all _ _)).
Qed.

(** X13. A hook whose script is absent or the empty string is not run: the
    trace has no start of that hook. *)
Theorem empty_hook_is_not_run w cwd flags pkg b h :
  fs_readJson w (Path.join [cwd; "package.json"]) = inr pkg ->
  Manifest.bundler pkg = Some b ->
  hookScript h b = None \/ hookScript h b = Some "" ->
  forall c, ~ In (EvExecStart h c) (trace (run w cwd flags)).
Proof.
  intros Hread Hb Hh c Hin.
  assert (Hf : optTruthy (hookScript h b) = false)
    by (destruct Hh as [-> | ->]; reflexivity).
  apply (In_run_phases _ _ _ _ _ _ Hread Hb) in Hin
    as [H|[(t & H)|[H|H]]]; try discriminate H.
  - destruct h; simpl in Hf.
    + revert H. unfold setupPhase. rewrite Hf.
      destruct (hasFlag flags "reset"); run_prim;
        repeat match goal with
               | |- context [match ?x with None => _ | Some _ => _ end] =>
                   destruct x; simpl
               end;
        intros H; repeat destruct H as [H|H]; discriminate H || contradiction.
    + exact (forallb_not_In _ _ (EvExecStart PostHook c)
               (setupPhase_events w cwd flags b) eq_refl H).
  - exact (forallb_not_In _ _ (EvExecStart h c)
             (Promise_all_events w _) eq_refl H).
  - destruct h; simpl in Hf.
    + exact (forallb_not_In _ _ (EvExecStart PreHook c)
               (finishPhase_events w cwd b) eq_refl H).
    + revert H. unfold finishPhase. rewrite Hf.
      destruct (process_env_CI w) as [v|]; try destruct (v =? "true"); run_prim;
        intros H; repeat destruct H as [H|H]; discriminate H || contradiction.
Qed.

Lemma empty_hook_is_not_run_witness :
  ~ In (EvExecStart PreHook (hookCommand emptyHooksWorld ""))
       (trace (run emptyHooksWorld "/repo/pkg" []))
  /\ outcome (run emptyHooksWorld "/repo/pkg" []) = inr tt.
Proof.
  split; [|reflexivity].
  eapply (empty_hook_is_not_run emptyHooksWorld "/repo/pkg" [] _ _ PreHook).
  - reflexivity.
  - reflexivity.
  - right. reflexivity.
Defined.

(** ** The mapper files *)

Lemma runTask_written w t :
  (outcome (runTask w t) = inr tt
   /\ written (trace (runTask w t)) = map (mapperWrite w) (mappers [t]))
  \/ ((exists e, outcome (runTask w t) = inl e)
      /\ written (trace (runTask w t)) = []).
Proof.
  destruct t as [o|file]; unfold runTask, generateDTSMapperFile; run_prim.
  - destruct (tsup_build w o); simpl; [right | left]; eauto.
  - destruct (fs_ensureFile w _); simpl; [right; eauto|].
    destruct (fs_writeFile w _ _); simpl; [right; eauto|].
    left. now split.
Qed.

Lemma Promise_all_written_In w ts f :
  In f (written (trace (Promise_all w ts))) ->
  In f (map (mapperWrite w) (mappers ts)).
Proof.
  induction ts as [|t ts IH]; [intros []|].
  simpl. rewrite trace_bind. unfold written. rewrite select_app. fold written.
  change (mappers (t :: ts)) with (mappers [t] ++ mappers ts)%list.
  rewrite map_app, !in_app_iff.
  destruct (runTask_written w t) as [(Ho & Hw)|((e & Ho) & Hw)]; rewrite Ho, Hw.
  - intros [H|H]; [left; destruct t; exact H | right; apply IH; exact H].
  - intros [[]|[]].
Qed.

(** X14. Whatever the run writes through the mapper is the mapper file of
    a configured entry, path and content, and it writes such files only in
    a run without [--optimized] of a package with a [tsconfig.json]. *)
Theorem written_files_belong_to_entries w cwd flags pkg b :
  fs_readJson w (Path.join [cwd; "package.json"]) = inr pkg ->
  Manifest.bundler pkg = Some b ->
  (forall f, In f (written (trace (run w cwd flags))) ->
             exists e, In e (planEntries b) /\ f = mapperWrite w e)
  /\ (written (trace (run w cwd flags)) <> [] ->
      hasFlag flags "optimized" = false
      /\ fs_pathExists w (Path.join [process_cwd w; "tsconfig.json"]) = true).
Proof.
  intros Hread Hb. rewrite (run_written _ _ _ _ _ Hread Hb).
  destruct (outcome (setupPhase w cwd flags b)).
  - split; [intros f [] | intros H; now contradiction H].
  - assert (Hin : forall f,
               In f (written (trace (Promise_all w (planTasks w cwd flags pkg b)))) ->
               In f (map (mapperWrite w) (mappers (planTasks w cwd flags pkg b))))
      by (intros f; apply Promise_all_written_In).
    rewrite planTasks_mappers in Hin.
    unfold planOptimized, planTsConfigPath in Hin.
    split.
    + intros f Hf. apply Hin in Hf.
      destruct (fs_pathExists w _ && negb (hasFlag flags "optimized"));
        [|contradiction].
      apply in_map_iff in Hf as (e & <- & He). now exists e.
    + destruct (written _) as [|f l]; [intros H; now contradiction H|].
      intros _. specialize (Hin f (or_introl eq_refl)).
      destruct (fs_pathExists w _), (hasFlag flags "optimized");
        simpl in Hin; try contradiction. now split.
Qed.

Lemma written_files_belong_to_entries_witness :
  exists e,
    In e (planEntries (exampleBundler (Some [esm; cjs])))
    /\ ("/repo/pkg/dist/presets/foo-preset.d.ts",
        content (mapperFile "/repo/pkg" "./src/presets/foo-preset.ts"))
       = mapperWrite specWorld e.
Proof.
  destruct (written_files_belong_to_entries specWorld "/repo/pkg" []
              (examplePackage (Some [esm; cjs])) (exampleBundler (Some [esm; cjs]))
              eq_refl eq_refl) as [H _].
  apply H. vm_compute. right. left. reflexivity.
Defined.

(** X15. The step that splits [rel] at [path.sep] and joins it with
    [path.posix.sep] changes nothing where the separator is [/]: [rel] is
    the relative path from the directory of the mapper file to the directory
    of the source, for every working directory and entry. *)
Theorem mapper_rel_is_the_relative_path cwd file :
  rel (mapperFile cwd file)
  = Path.relative cwd
      (Path.dirname (pathName (mapperFile cwd file)))
      (Path.dirname (srcName (mapperFile cwd file))).
Proof.
  unfold mapperFile. cbv zeta. cbn [rel pathName srcName].
  apply joinBy_split.
Qed.

(** X16. The mapper file of a conventional entry does not depend on the
    entry's extension: [index.ts] and [index.tsx] of one directory share
    their mapper file, path and content. *)
Theorem mapper_ignores_extension cs ds n e1 e2 :
  forallb plainSegment cs = true ->
  forallb plainSegment ds = true ->
  plainSegment n = true ->
  plainExt e1 = true -> plainExt e2 = true ->
  pathName (mapperFile (absPath cs) (srcEntry ds n e1))
  = pathName (mapperFile (absPath cs) (srcEntry ds n e2))
  /\ content (mapperFile (absPath cs) (srcEntry ds n e1))
     = content (mapperFile (absPath cs) (srcEntry ds n e2)).
Proof.
  intros Hcs Hds Hn H1 H2. split.
  - now rewrite !pathName_conventional.
  - change (content (mapperFile (absPath cs) (srcEntry ds n e1)))
      with ("// dev-mode" ++ JsString.LF ++ "export * from '"
            ++ reference (mapperFile (absPath cs) (srcEntry ds n e1)) ++ "';").
    change (content (mapperFile (absPath cs) (srcEntry ds n e2)))
      with ("// dev-mode" ++ JsString.LF ++ "export * from '"
            ++ reference (mapperFile (absPath cs) (srcEntry ds n e2)) ++ "';").
    now rewrite !reference_conventional.
Qed.

Lemma mapper_ignores_extension_witness :
  pathName (mapperFile "/repo/pkg" "./src/index.ts")
  = pathName (mapperFile "/repo/pkg" "./src/index.tsx")
  /\ content (mapperFile "/repo/pkg" "./src/index.ts")
     = content (mapperFile "/repo/pkg" "./src/index.tsx").
Proof.
  apply (mapper_ignores_extension ["repo"; "pkg"] [] "index" "ts" "tsx");
    reflexivity.
Defined.

Lemma list_ascii_of_append a b :
  list_ascii_of_string (a ++ b)
  = (list_ascii_of_string a ++ list_ascii_of_string b)%list.
Proof. induction a as [|x a IH]; simpl; [reflexivity | now rewrite IH]. Qed.

Lemma list_ascii_inj a b : list_ascii_of_string a = list_ascii_of_string b -> a = b.
Proof.
  intros H. rewrite <- (string_of_list_ascii_of_string a),
    <- (string_of_list_ascii_of_string b). now rewrite H.
Qed.

Lemma append_inv_tail a b c : a ++ c = b ++ c -> a = b.
Proof.
  intros H. apply list_ascii_inj.
  apply (f_equal list_ascii_of_string) in H.
  rewrite !list_ascii_of_append in H. now apply app_inv_tail in H.
Qed.

Lemma joinBy_inj xs ys :
  xs <> [] -> ys <> [] ->
  forallb noSep xs = true -> forallb noSep ys = true ->
  JsString.joinBy "/" xs = JsString.joinBy "/" ys -> xs = ys.
Proof.
  intros Hx Hy Hxs Hys H.
  rewrite <- (split_joinBy xs Hx Hxs), <- (split_joinBy ys Hy Hys).
  now rewrite H.
Qed.

(** X17. Conventional entries that differ in their directories or in their
    name never share a mapper file: equal paths force equal directories and
    an equal name. *)
Theorem mapper_paths_are_distinct cs ds n e ds' n' e' :
  forallb plainSegment cs = true ->
  forallb plainSegment ds = true -> plainSegment n = true -> plainExt e = true ->
  forallb plainSegment ds' = true -> plainSegment n' = true -> plainExt e' = true ->
  pathName (mapperFile (absPath cs) (srcEntry ds n e))
  = pathName (mapperFile (absPath cs) (srcEntry ds' n' e')) ->
  ds = ds' /\ n = n'.
Proof.
  intros Hcs Hds Hn He Hds' Hn' He'.
  rewrite !pathName_conventional by assumption.
  unfold absPath. intros [= H].
  pose proof (dts_plain n Hn) as Hp. pose proof (dts_plain n' Hn') as Hp'.
  apply joinBy_inj in H.
  - apply app_inv_head in H. injection H as H.
    apply app_inj_tail in H as [-> H]. split; [reflexivity|].
    now apply append_inv_tail in H.
  - now destruct cs.
  - now destruct cs.
  - apply forallb_plain_noSep.
    rewrite forallb_app, Hcs; simpl. now rewrite forallb_app, Hds; simpl; rewrite Hp.
  - apply forallb_plain_noSep.
    rewrite forallb_app, Hcs; simpl. now rewrite forallb_app, Hds'; simpl; rewrite Hp'.
Qed.

Lemma mapper_paths_are_distinct_witness :
  (@nil string) = [] /\ "index" = "index".
Proof.
  apply (mapper_paths_are_distinct ["repo"; "pkg"] [] "index" "ts" [] "index" "tsx");
    reflexivity.
Defined.

(** ** Preset entries *)

Lemma replaceAllChar_absent c d s :
  hasChar c s = false -> JsString.replaceAllChar c d s = s.
Proof.
  induction s as [|x r IH]; simpl; [reflexivity|].
  intros [Hx Hr]%orb_false_elim. now rewrite Hx, (IH Hr).
Qed.

Lemma slash_without_backslash p :
  hasChar "\"%char p = false -> slash p = p.
Proof.
  intros H. unfold slash. cbv zeta.
  destruct (_ || _); [reflexivity|].
  now apply replaceAllChar_absent.
Qed.

Lemma splitExt_entryBase n e :
  plainSegment n = true -> plainExt e = true ->
  Path.splitExt false (entryBase n e) = (n, "." ++ e).
Proof.
  intros Hn He. unfold Path.splitExt, entryBase.
  change ("." ++ e) with (String "."%char e).
  unfold plainExt in He. apply andb_prop in He as [H _].
  apply negb_true_iff in H. rewrite (rsplit_app _ _ _ H).
  unfold plainSegment in Hn.
  apply andb_prop in Hn as [[[H0 H1]%andb_prop _]%andb_prop _].
  apply negb_true_iff in H0, H1. now rewrite H0, H1.
Qed.

Lemma parse_name_absPath xs n e :
  xs <> [] -> plainSegment n = true -> plainExt e = true ->
  Path.name (Path.parse (absPath (xs ++ [entryBase n e]))) = n.
Proof.
  intros Hx Hn He. unfold absPath. rewrite slash_app.
  unfold Path.parse. cbn [String.eqb Path.isAbsolute JsString.drop].
  rewrite Ascii.eqb_refl.
  rewrite joinBy_app_last by assumption.
  pose proof (baseName_noSep n e Hn He) as Hs.
  pose proof (baseName_plain n e Hn He) as Hp.
  replace (JsString.joinBy "/" xs ++ "/" ++ entryBase n e)
    with ((JsString.joinBy "/" xs ++ "/") ++ entryBase n e)
    by apply append_assoc.
  rewrite stripTrailingSep_app; [|now apply plainSegment_nonempty | exact Hs].
  rewrite append_assoc. change ("/" ++ entryBase n e) with (String Path.sep (entryBase n e)).
  rewrite (rsplit_app _ _ _ Hs), (splitExt_entryBase _ _ Hn He). reflexivity.
Qed.

(** X18. Whether a conventional entry is kept out of the ESM build depends
    on its name alone: it is a preset exactly when the name, without
    directories and extension, contains [preset]. A directory called
    [presets] does not make its files presets. *)
Theorem preset_depends_on_name_only cs ds n e :
  forallb plainSegment cs = true ->
  forallb plainSegment ds = true ->
  plainSegment n = true -> plainExt e = true ->
  hasChar "\"%char (Path.join [absPath cs; srcEntry ds n e]) = false ->
  isPreset (slash (Path.join [absPath cs; srcEntry ds n e]))
  = JsString.includes n "preset".
Proof.
  intros Hcs Hds Hn He Hb.
  rewrite (slash_without_backslash _ Hb). unfold isPreset. f_equal.
  change (Path.join [absPath cs; srcEntry ds n e])
    with (srcName (mapperFile (absPath cs) (srcEntry ds n e))).
  rewrite srcName_conventional by assumption.
  change (cs ++ "src" :: ds ++ [(n ++ "." ++ e)%string])%list
    with (cs ++ ("src" :: ds) ++ [entryBase n e])%list.
  rewrite app_assoc. apply parse_name_absPath; trivial.
  now destruct cs.
Qed.

Lemma preset_depends_on_name_only_witness :
  isPreset (slash (Path.join ["/repo/pkg"; "./src/presets/index.ts"])) = false.
Proof.
  apply (preset_depends_on_name_only ["repo"; "pkg"] ["presets"] "index" "ts");
    reflexivity.
Defined.

(** ** Entries of the declaration section *)

(** X19. The declaration section of a build lists all configured entries as
    the manifest writes them, presets included, also when it is attached
    to the ESM build, whose own entry list leaves the presets out. *)
Theorem dts_covers_all_entries w cwd flags pkg b o d :
  fs_readJson w (Path.join [cwd; "package.json"]) = inr pkg ->
  Manifest.bundler pkg = Some b ->
  In (EvDispatch (BuildTask o)) (trace (run w cwd flags)) ->
  Tsup.dts o = Some d ->
  Tsup.dts_entry d = default [] (Manifest.entries b)
  /\ Tsup.dts_resolve d = true
  /\ Tsup.tsconfig d = Path.join [process_cwd w; "tsconfig.json"].
Proof.
  intros Hread Hb Hin.
  apply (run_dispatch_inv _ _ _ _ _ _ Hread Hb), planTasks_build in Hin.
  destruct Hin as [[-> _]|[-> _]]; simpl;
    (destruct (_ && _); [|discriminate]);
    destruct (hd_error (planFormats b)) as [[]|]; try discriminate;
    intros [= H]; subst d; repeat split.
Qed.

Lemma dts_covers_all_entries_witness :
  exists d,
    Tsup.dts (planEsm optimizedWorld "/repo/pkg" ["--optimized"]
                (examplePackage (Some [esm; cjs]))
                (exampleBundler (Some [esm; cjs]))) = Some d
    /\ Tsup.dts_entry d = ["./src/index.ts"; "./src/presets/foo-preset.ts"]
    /\ Tsup.entry (planEsm optimizedWorld "/repo/pkg" ["--optimized"]
                     (examplePackage (Some [esm; cjs]))
                     (exampleBundler (Some [esm; cjs])))
       = ["/repo/pkg/src/index.ts"].
Proof.
  eexists. split; [reflexivity|]. split; [|reflexivity].
  apply (dts_covers_all_entries optimizedWorld "/repo/pkg" ["--optimized"]
           (examplePackage (Some [esm; cjs])) (exampleBundler (Some [esm; cjs]))
           (planEsm optimizedWorld "/repo/pkg" ["--optimized"]
              (examplePackage (Some [esm; cjs]))
              (exampleBundler (Some [esm; cjs])))).
  - reflexivity.
  - reflexivity.
  - simpl. find_in_list.
  - reflexivity.
Defined.

(** X20. A manifest without entries (the field absent or empty): every
    build that is dispatched has an empty entry list, and no mapper task is
    dispatched nor any file written. *)
Theorem no_entries_no_mapper_files w cwd flags pkg b :
  fs_readJson w (Path.join [cwd; "package.json"]) = inr pkg ->
  Manifest.bundler pkg = Some b ->
  Manifest.entries b = None \/ Manifest.entries b = Some [] ->
  (forall o, In (EvDispatch (BuildTask o)) (trace (run w cwd flags)) ->
             Tsup.entry o = [])
  /\ mappers (dispatched (trace (run w cwd flags))) = []
  /\ written (trace (run w cwd flags)) = [].
Proof.
  intros Hread Hb He.
  assert (Hn : planEntries b = [])
    by (unfold planEntries; destruct He as [-> | ->]; reflexivity).
  assert (Hm : mappers (planTasks w cwd flags pkg b) = []).
  { rewrite planTasks_mappers, Hn. now destruct (_ && _). }
  split; [|split].
  - intros o Hin.
    apply (run_dispatch_inv _ _ _ _ _ _ Hread Hb), planTasks_build in Hin.
    destruct Hin as [[-> _]|[-> _]]; simpl; unfold planAllEntries;
      now rewrite Hn.
  - rewrite (run_dispatched_cases _ _ _ _ _ Hread Hb).
    now destruct (outcome _).
  - rewrite (run_written _ _ _ _ _ Hread Hb).
    destruct (outcome _); [reflexivity|].
    now apply Promise_all_no_mappers.
Qed.

Lemma no_entries_no_mapper_files_witness :
  Tsup.entry (planCjs noEntriesWorld "/repo/pkg" [] noEntriesPackage noEntriesBundler) = []
  /\ mappers (dispatched (trace (run noEntriesWorld "/repo/pkg" []))) = []
  /\ written (trace (run noEntriesWorld "/repo/pkg" [])) = [].
Proof.
  destruct (no_entries_no_mapper_files noEntriesWorld "/repo/pkg" []
              noEntriesPackage noEntriesBundler eq_refl eq_refl
              (or_introl eq_refl)) as (H1 & H2 & H3).
  split; [|split; assumption].
  apply H1. simpl. find_in_list.
Defined.

(** ** The flags and the platform *)

(** X21. The arguments matter only through the three flags: two argument
    lists that agree on [reset], [watch] and [optimized] give the same run,
    events and outcome; any other argument is ignored. *)
Theorem only_three_flags_matter w cwd flags flags' :
  hasFlag flags "reset" = hasFlag flags' "reset" ->
  hasFlag flags "watch" = hasFlag flags' "watch" ->
  hasFlag flags "optimized" = hasFlag flags' "optimized" ->
  run w cwd flags = run w cwd flags'.
Proof.
  intros Hr Hw Ho.
  destruct (fs_readJson w (Path.join [cwd; "package.json"])) as [e|pkg] eqn:Hread.
  - now rewrite !(run_read_fails _ _ _ _ Hread).
  - destruct (Manifest.bundler pkg) as [b|] eqn:Hb.
    + rewrite !(run_unfold _ _ _ _ _ Hread Hb).
      unfold setupPhase, planTasks, planEsm, planCjs, planDts, planOptimized.
      now rewrite Hr, Hw, Ho.
    + now rewrite !(run_no_bundler _ _ _ _ Hread Hb).
Qed.

Lemma only_three_flags_matter_witness :
  run specWorld "/repo/pkg" ["--reset"]
  = run specWorld "/repo/pkg" ["--verbose"; "--reset-all"; "reset"; "-w"].
Proof.
  apply (only_three_flags_matter specWorld "/repo/pkg" ["--reset"]
           ["--verbose"; "--reset-all"; "reset"; "-w"]); reflexivity.
Defined.

(** X22. The banner that defines [require] is on a dispatched build exactly
    when it is the ESM build of a package whose platform is [node]; that
    build then aliases [fs-extra/esm], while the ESM build of any other
    platform aliases [process] and [util]; the CommonJS build has no
    plugin. *)
Theorem require_banner_iff_node_esm w cwd flags pkg b o :
  fs_readJson w (Path.join [cwd; "package.json"]) = inr pkg ->
  Manifest.bundler pkg = Some b ->
  In (EvDispatch (BuildTask o)) (trace (run w cwd flags)) ->
  (Tsup.banner_js o = Some requireBanner
   <-> Tsup.format o = [esm] /\ Manifest.platform b = Some node)
  /\ (Tsup.banner_js o = Some requireBanner \/ Tsup.banner_js o = None)
  /\ (Tsup.format o = [esm] ->
      map (map fst) (Tsup.esbuildPlugins o)
      = match Manifest.platform b with
        | Some node => [["fs-extra/esm"; "fs-extra/lib/esm.mjs"]]
        | _ => [["process"; "util"]]
        end)
  /\ (Tsup.format o = [cjs] -> Tsup.esbuildPlugins o = []).
Proof.
  intros Hread Hb Hin.
  apply (run_dispatch_inv _ _ _ _ _ _ Hread Hb), planTasks_build in Hin.
  destruct Hin as [[-> _]|[-> _]]; unfold planEsm, planCjs, esmOptions, cjsOptions;
    cbn [Tsup.banner_js Tsup.format Tsup.esbuildPlugins];
    destruct (Manifest.platform b) as [[]|]; cbn [map fst];
    repeat split; intros; try discriminate; try reflexivity;
    try (now left); try (now right);
    match goal with
    | H : _ /\ _ |- _ => destruct H; discriminate
    | _ => idtac
    end.
Qed.

Lemma require_banner_iff_node_esm_witness :
  Tsup.banner_js (planEsm specWorld "/repo/pkg" [] (examplePackage (Some [esm; cjs]))
                    (exampleBundler (Some [esm; cjs]))) = Some requireBanner
  /\ Tsup.esbuildPlugins
       (planCjs specWorld "/repo/pkg" [] (examplePackage (Some [esm; cjs]))
          (exampleBundler (Some [esm; cjs]))) = [].
Proof.
  split.
  - destruct (require_banner_iff_node_esm specWorld "/repo/pkg" []
                (examplePackage (Some [esm; cjs])) (exampleBundler (Some [esm; cjs]))
                (planEsm specWorld "/repo/pkg" [] (examplePackage (Some [esm; cjs]))
                   (exampleBundler (Some [esm; cjs])))
                eq_refl eq_refl ltac:(simpl; find_in_list)) as [[_ H] _].
    apply H. split; reflexivity.
  - destruct (require_banner_iff_node_esm specWorld "/repo/pkg" []
                (examplePackage (Some [esm; cjs])) (exampleBundler (Some [esm; cjs]))
                (planCjs specWorld "/repo/pkg" [] (examplePackage (Some [esm; cjs]))
                   (exampleBundler (Some [esm; cjs])))
                eq_refl eq_refl ltac:(simpl; find_in_list)) as (_ & _ & _ & H).
    apply H. reflexivity.
Defined.
